(** * Thermal image classifier (tl-efficient.py): a shallow embedding

    The repository is one Python class, [ThermalImageClassifierEfficientNet],
    that drives the Keras API.  The class's own logic (attribute
    initialisation, guards, dictionary lookups, list indexing and slicing,
    the configuration handed to the framework) is embedded method by method.
    The framework calls it makes are embedded as far as the class depends on
    them, each in the module [Keras] or [TF] with the framework behaviour it
    stands for written next to it; numeric training itself (decoding images,
    gradient steps, metric values) is a parameter of the development. *)

From Stdlib Require Import ZArith QArith List Bool Lia.
From Stdlib Require Import Floats.SpecFloat.
From stdpp Require Import gmap strings list fin_maps.

Open Scope Z_scope.

(** ** Python values and control *)

Module Py.

(** The exceptions the embedded code can raise. *)
Inductive exn :=
| AttributeError
| IndexError
| KeyError
| ValueError
| OverflowError
| RuntimeError
| FileNotFoundError.

(** A call either raises or returns. *)
Definition result (A : Type) : Type := exn + A.

Definition Raise {A} (e : exn) : result A := inl e.
Definition Return {A} (a : A) : result A := inr a.

Definition bind {A B} (c : result A) (k : A -> result B) : result B :=
  match c with
  | inl e => inl e
  | inr a => k a
  end.

Definition raises {A} (c : result A) : bool :=
  match c with inl _ => true | inr _ => false end.

(** [xs[i]] for a Python list: negative indices count from the end, an
    index out of range raises IndexError. *)
Definition index {A} (xs : list A) (i : Z) : result A :=
  let n := Z.of_nat (length xs) in
  let j := if i <? 0 then i + n else i in
  if (j <? 0) || (n <=? j) then Raise IndexError
  else match xs !! Z.to_nat j with
       | Some x => Return x
       | None => Raise IndexError
       end.

(** The start position of the slice [xs[start:]]: a negative start counts
    from the end and the result is clamped to [0, len]. *)
Definition slice_start (len : nat) (start : Z) : nat :=
  let n := Z.of_nat len in
  let j := if start <? 0 then Z.max 0 (start + n) else Z.min start n in
  Z.to_nat j.

(** [xs[start:]]. *)
Definition slice_from {A} (xs : list A) (start : Z) : list A :=
  drop (slice_start (length xs) start) xs.

(** [range(n)]: empty for [n <= 0]. *)
Definition range (n : Z) : list nat := seq 0 (Z.to_nat n).

(** *** Binary64 arithmetic, as [float] has it *)

Definition prec : Z := 53.
Definition emax : Z := 1024.

(** [float(n)] for an integer [n]. *)
Definition float_of_int (n : Z) : spec_float :=
  binary_normalize prec emax n 0 false.

Definition float_mul : spec_float -> spec_float -> spec_float :=
  SFmul prec emax.
Definition float_div : spec_float -> spec_float -> spec_float :=
  SFdiv prec emax.

(** [a / b] on two integers (true division).  Both operands of the
    source are below 2^53, so the quotient of the converted operands is
    the correctly rounded quotient Python returns. *)
Definition truediv (a b : Z) : spec_float :=
  float_div (float_of_int a) (float_of_int b).

(** [int(x)] on a float: truncation toward zero; raises on an infinity
    (OverflowError) and on a NaN (ValueError). *)
Definition int (x : spec_float) : result Z :=
  match x with
  | S754_zero _ => Return 0
  | S754_infinity _ => Raise OverflowError
  | S754_nan => Raise ValueError
  | S754_finite s m e =>
      let mag := if 0 <=? e then Z.pos m * 2 ^ e
                 else Z.pos m / 2 ^ (- e) in
      Return (if s then - mag else mag)
  end.

End Py.

Notation "x <- c ;; k" := (Py.bind c (fun x => k))
  (at level 100, c at next level, right associativity).

(** A decimal float literal of the source, [mant * 10 ^ exp10]: [1e-3] is
    [Dec 1 (-3)], [0.1] is [Dec 1 (-1)]. *)
Record DecLit := Dec { mant : Z; exp10 : Z }.

(** The float values the framework computes with (pixels, losses, metric
    values, learning rates).  Their arithmetic belongs to the framework and
    is kept abstract; the source only passes literals in. *)
Class Numeric := {
  num : Type;
  lit : DecLit -> num;
  num_mul : num -> num -> num;
  num_add : num -> num -> num;
  num_sub : num -> num -> num;
  num_ltb : num -> num -> bool;
}.

(** Python's [max(a, b)]: the first argument unless the second is larger. *)
Definition py_max `{Numeric} (a b : num) : num :=
  if num_ltb a b then b else a.

(** ** Tensors and the two tensor operations the class calls *)

Module TF.

(** An eager tensor: its shape and its elements in row-major order. *)
Record Tensor (A : Type) := mkTensor { shape : list nat; data : list A }.
Arguments mkTensor {A} _ _.
Arguments shape {A} _.
Arguments data {A} _.

Definition numel (sh : list nat) : nat := foldr Nat.mul 1%nat sh.

Definition well_formed {A} (t : Tensor A) : Prop :=
  length (data t) = numel (shape t).

(** [tf.image.grayscale_to_rgb]: the input must have rank at least 2 and a
    last dimension of size 1; the output tiles the last axis three times
    ([tf.tile] with multiples [1, ..., 1, 3]), so each element appears
    three times in a row and the last dimension becomes 3. *)
Definition grayscale_to_rgb {A} (images : Tensor A) : Py.result (Tensor A) :=
  if (length (shape images) <? 2)%nat then Py.Raise Py.ValueError
  else match last (shape images) with
       | Some 1%nat =>
           Py.Return
             (mkTensor (removelast (shape images) ++ [3%nat])
                       (flat_map (fun x => [x; x; x]) (data images)))
       | _ => Py.Raise Py.ValueError
       end.

(** One row of [tf.one_hot]: [on] at position [label], [off] elsewhere; a
    label outside [0, depth) gives a row of [off] only. *)
Definition one_hot_row {A} (on off : A) (depth : nat) (label : Z) : list A :=
  map (fun j => if Z.of_nat j =? label then on else off) (seq 0 depth).

(** [tf.one_hot(indices, depth)] on a vector of labels: a negative depth is
    rejected, every other depth is accepted whatever the labels are. *)
Definition one_hot {A} (on off : A) (indices : list Z) (depth : Z)
  : Py.result (Tensor A) :=
  if depth <? 0 then Py.Raise Py.ValueError
  else Py.Return
         (mkTensor [length indices; Z.to_nat depth]
                   (flat_map (one_hot_row on off (Z.to_nat depth)) indices)).

End TF.

(** ** The Keras objects the class builds and drives *)

Module Keras.

(** The layer classes the source instantiates, with the arguments it
    passes; [Backbone] stands for a layer inside the pretrained network. *)
Inductive LayerKind :=
| InputLayer (batch_shape : list (option Z))
| Resizing (height width : Z)
| RandomBrightness (lower upper : DecLit)
| RandomContrast (factor : DecLit)
| RandomFlip
| Lambda (function : string)
| GlobalAveragePooling2D
| Dense (units : Z) (activation : string)
| Backbone (name : string).

(** A layer object with its [trainable] flag.  A functional model used as
    a layer carries its own list of layers; only such a layer has a
    [layers] attribute. *)
#[warnings="-register-all"]
Inductive Layer :=
| Leaf (kind : LayerKind) (trainable : bool)
| Functional (name : string) (trainable : bool) (sublayers : list Layer).

Definition trainable (l : Layer) : bool :=
  match l with
  | Leaf _ b => b
  | Functional _ b _ => b
  end.

(** [layer.trainable = b]: the setter also sets the flag on every layer
    nested in [layer]. *)
Fixpoint set_trainable (b : bool) (l : Layer) : Layer :=
  match l with
  | Leaf k _ => Leaf k b
  | Functional n _ sub => Functional n b (map (set_trainable b) sub)
  end.

(** [layer.layers]: an AttributeError on a plain layer. *)
Definition layer_layers (l : Layer) : Py.result (list Layer) :=
  match l with
  | Leaf _ _ => Py.Raise Py.AttributeError
  | Functional _ _ sub => Py.Return sub
  end.

(** A symbolic tensor of the functional API: the input layer it descends
    from and the layers called on the way, in call order. *)
Record KTensor := mkKTensor { kt_root : Layer; kt_path : list Layer }.

(** [tf.keras.layers.Input(shape=...)]: the batch axis is prepended. *)
Definition Input (shape : list Z) : KTensor :=
  mkKTensor (Leaf (InputLayer (None :: map Some shape)) true) [].

(** [layer(x)]. *)
Definition call (l : Layer) (x : KTensor) : KTensor :=
  mkKTensor (kt_root x) (kt_path x ++ [l]).

(** Metrics and the name each reports under in the epoch logs. *)
Inductive Metric := Accuracy | BinaryAccuracy | CategoricalAccuracy.

Definition metric_name (m : Metric) : string :=
  match m with
  | Accuracy => "accuracy"
  | BinaryAccuracy => "binary_accuracy"
  | CategoricalAccuracy => "categorical_accuracy"
  end.

Inductive Loss := CategoricalCrossentropy (name : string).

Section Models.
Context `{Numeric} {W : Type}.

Inductive Optimizer := Nadam (learning_rate : num).

Definition learning_rate (o : Optimizer) : num :=
  match o with Nadam lr => lr end.

Record Compiled := mkCompiled {
  optimizer : Optimizer;
  loss : Loss;
  metrics : list Metric;
}.

(** A functional model: the tensors it was built between, the values of
    its variables, and what [compile] stored. *)
Record Model := mkModel {
  inputs : KTensor;
  outputs : KTensor;
  weights : W;
  compiled : option Compiled;
}.

(** [model.layers] of a model built on a chain of layer calls: the input
    layer followed by every layer on the path to [outputs], in call
    order (the flattened graph, whatever sub-model those layers were
    first gathered in). *)
Definition layers (m : Model) : list Layer :=
  kt_root (outputs m) :: kt_path (outputs m).

(** [tf.keras.models.Model(inputs=..., outputs=...)].  Both tensors of
    each call in the source lie on one chain. *)
Definition Model_new (init : list Layer -> W) (ins outs : KTensor) : Model :=
  mkModel ins outs (init (kt_root outs :: kt_path outs)) None.

(** The model after the layer object at position [i] of [model.layers]
    has been mutated into [l]. *)
Definition with_layer (i : nat) (l : Layer) (m : Model) : Model :=
  let outs :=
    match i with
    | O => mkKTensor l (kt_path (outputs m))
    | S j => mkKTensor (kt_root (outputs m)) (<[j := l]> (kt_path (outputs m)))
    end in
  mkModel (inputs m) outs (weights m) (compiled m).

(** [model.input_shape]. *)
Definition input_shape (m : Model) : option (list (option Z)) :=
  match kt_root (inputs m) with
  | Leaf (InputLayer sh) _ => Some sh
  | _ => None
  end.

(** [model.compile(optimizer=..., loss=..., metrics=...)]. *)
Definition compile (o : Optimizer) (l : Loss) (ms : list Metric) (m : Model)
  : Model :=
  mkModel (inputs m) (outputs m) (weights m) (Some (mkCompiled o l ms)).

(** The keys of the logs of one epoch of [fit] with validation data:
    the loss and every metric under its name, then the same under the
    prefix [val_]. *)
Definition log_keys (c : Compiled) : list string :=
  let names := "loss" :: map metric_name (metrics c) in
  names ++ map (fun k => "val_" +:+ k) names.

End Models.

Arguments Optimizer {_}.
Arguments Compiled {_}.
Arguments Model {_} W.

(** *** Callbacks and the training loop *)

Inductive Callback :=
| ModelCheckpoint (filepath : string) (save_best_only : bool) (monitor : string)
| ReduceLROnPlateau (monitor : string) (factor : DecLit) (patience : Z)
                    (verbose : Z)
| EarlyStopping (monitor : string) (patience : Z).


(** [sub in s]. *)
Fixpoint contains (sub s : string) : bool :=
  String.prefix sub s ||
  match s with
  | EmptyString => false
  | String _ s' => contains sub s'
  end.

(** Mode [auto] of the callbacks: a monitored name containing [acc] is to
    be maximised, any other minimised. *)
Inductive Mode := Min | Max.

Definition auto_mode (monitor : string) : Mode :=
  if contains "acc" monitor then Max else Min.

(** [ModelCheckpoint] also maximises a name that starts with [fmeasure]. *)
Definition checkpoint_mode (monitor : string) : Mode :=
  if contains "acc" monitor || String.prefix "fmeasure" monitor
  then Max else Min.

Section Training.
Context `{Numeric} {W : Type}.

(** What a callback object remembers between epochs; [best = None] is
    the initial infinity of its mode. *)
Record CbState := mkCb { best : option num; wait : Z; cooldown_counter : Z }.

Definition cb_init : CbState := mkCb None 0 0.

(** [monitor_op(current, best)] with the callback's [min_delta]. *)
Definition improves (mode : Mode) (min_delta : num) (current : num)
           (b : option num) : bool :=
  match b with
  | None => true
  | Some b =>
      match mode with
      | Min => num_ltb current (num_sub b min_delta)
      | Max => num_ltb (num_add b min_delta) current
      end
  end.

(** [ModelCheckpoint] compares with the bare [np.less]/[np.greater]. *)
Definition better (mode : Mode) (current : num) (b : option num) : bool :=
  match b with
  | None => true
  | Some b =>
      match mode with
      | Min => num_ltb current b
      | Max => num_ltb b current
      end
  end.

Record History := mkHistory {
  epoch : list nat;
  history : gmap string (list num);
}.

(** The state [fit] threads through the epochs: the model, the saved
    files, [model.stop_training], and the history being recorded. *)
Record FitState := mkFit {
  fit_model : Model W;
  fit_files : gmap string (Model W);
  stop_training : bool;
  fit_history : History;
}.

Definition set_model (m : Model W) (s : FitState) : FitState :=
  mkFit m (fit_files s) (stop_training s) (fit_history s).

Definition model_lr (m : Model W) : option num :=
  match compiled m with
  | Some c => Some (learning_rate (optimizer c))
  | None => None
  end.

(** [model.optimizer.learning_rate = lr]. *)
Definition set_lr (lr : num) (m : Model W) : Model W :=
  match compiled m with
  | Some c =>
      mkModel (inputs m) (outputs m) (weights m)
              (Some (mkCompiled (Nadam lr) (loss c) (metrics c)))
  | None => m
  end.

(** [model.save(path)]: the file at [path] is replaced. *)
Definition save (path : string) (m : Model W)
           (files : gmap string (Model W)) : gmap string (Model W) :=
  <[path := m]> files.

(** [ModelCheckpoint.on_epoch_end].  With [save_best_only] the monitored
    value is read from the logs; when the logs have no such key the
    callback warns, and then skips the save or saves anyhow, depending
    on the framework version ([save_unmonitored]). *)
Definition checkpoint_on_epoch_end (save_unmonitored : bool)
           (filepath : string) (save_best_only : bool) (monitor : string)
           (logs : gmap string num) (c : CbState) (s : FitState)
  : CbState * FitState :=
  let saved :=
    mkFit (fit_model s) (save filepath (fit_model s) (fit_files s))
          (stop_training s) (fit_history s) in
  if save_best_only then
    match logs !! monitor with
    | None => (c, if save_unmonitored then saved else s)
    | Some current =>
        if better (checkpoint_mode monitor) current (best c)
        then (mkCb (Some current) (wait c) (cooldown_counter c), saved)
        else (c, s)
    end
  else (c, saved).

(** Defaults of [ReduceLROnPlateau] the source leaves in place. *)
Definition rlrop_min_delta : DecLit := Dec 1 (-4).
Definition rlrop_cooldown : Z := 0.
Definition rlrop_min_lr : DecLit := Dec 0 0.

(** [ReduceLROnPlateau.on_epoch_end]. *)
Definition reduce_lr_on_epoch_end (monitor : string) (factor : DecLit)
           (patience : Z) (logs : gmap string num) (c : CbState)
           (s : FitState) : CbState * FitState :=
  match logs !! monitor with
  | None => (c, s)
  | Some current =>
      let c1 := if 0 <? cooldown_counter c
                then mkCb (best c) 0 (cooldown_counter c - 1)
                else c in
      if improves (auto_mode monitor) (lit rlrop_min_delta) current (best c1)
      then (mkCb (Some current) 0 (cooldown_counter c1), s)
      else if 0 <? cooldown_counter c1 then (c1, s)
      else
        let w := wait c1 + 1 in
        let waiting := mkCb (best c1) w (cooldown_counter c1) in
        if patience <=? w then
          match model_lr (fit_model s) with
          | Some old_lr =>
              if num_ltb (lit rlrop_min_lr) old_lr then
                let new_lr :=
                  py_max (num_mul old_lr (lit factor)) (lit rlrop_min_lr) in
                (mkCb (best c1) 0 rlrop_cooldown,
                 set_model (set_lr new_lr (fit_model s)) s)
              else (waiting, s)
          | None => (waiting, s)
          end
        else (waiting, s)
  end.

(** [EarlyStopping.on_epoch_end] with its defaults. *)
Definition early_stopping_on_epoch_end (monitor : string) (patience : Z)
           (ep : nat) (logs : gmap string num) (c : CbState)
           (s : FitState) : CbState * FitState :=
  match logs !! monitor with
  | None => (c, s)
  | Some current =>
      let w := wait c + 1 in
      if better (auto_mode monitor) current (best c)
      then (mkCb (Some current) 0 (cooldown_counter c), s)
      else if (patience <=? w) && (0 <? ep)%nat
           then (mkCb (best c) w (cooldown_counter c),
                 mkFit (fit_model s) (fit_files s) true (fit_history s))
           else (mkCb (best c) w (cooldown_counter c), s)
  end.

Definition on_epoch_end (save_unmonitored : bool) (ep : nat)
           (logs : gmap string num) (cb : Callback) (c : CbState)
           (s : FitState) : CbState * FitState :=
  match cb with
  | ModelCheckpoint path sbo mon =>
      checkpoint_on_epoch_end save_unmonitored path sbo mon logs c s
  | ReduceLROnPlateau mon factor patience _ =>
      reduce_lr_on_epoch_end mon factor patience logs c s
  | EarlyStopping mon patience =>
      early_stopping_on_epoch_end mon patience ep logs c s
  end.

(** The callbacks run in list order, each on the state the previous one
    left. *)
Fixpoint run_callbacks (save_unmonitored : bool) (ep : nat)
         (logs : gmap string num) (cbs : list (Callback * CbState))
         (s : FitState) : list (Callback * CbState) * FitState :=
  match cbs with
  | [] => ([], s)
  | (cb, c) :: rest =>
      let '(c', s') := on_epoch_end save_unmonitored ep logs cb c s in
      let '(rest', s'') := run_callbacks save_unmonitored ep logs rest s' in
      ((cb, c') :: rest', s'')
  end.

(** The [History] callback, which runs after the user's callbacks:
    every logged value is appended under its key. *)
Definition record (ep : nat) (kvs : list (string * num)) (h : History)
  : History :=
  mkHistory (epoch h ++ [ep])
    (foldl (fun d kv => <[kv.1 := default [] (d !! kv.1) ++ [kv.2]]> d)
           (history h) kvs).

End Training.

Arguments CbState {_}.
Arguments History {_}.
Arguments FitState {_} W.

End Keras.

(** ** Datasets on disk and in memory *)

Module Data.

(** A class subdirectory and the image files found under it. *)
Record ClassDir := mkClassDir { class_name : string; image_files : list string }.

(** A dataset directory: its class subdirectories, in the sorted order of
    their names in which the loader numbers them. *)
Definition Directory : Type := list ClassDir.

(** A [tf.data] dataset, as the sequence of the elements it yields. *)
Definition Dataset (X : Type) : Type := list X.

(** Every image file paired with the index of its class. *)
Definition index_directory (d : Directory) : list (string * Z) :=
  concat (imap (fun i c => map (fun f => (f, Z.of_nat i)) (image_files c)) d).

Fixpoint batch_fuel {A} (fuel n : nat) (l : list A) : list (list A) :=
  match fuel, l with
  | S fuel', _ :: _ => take n l :: batch_fuel fuel' n (drop n l)
  | _, _ => []
  end.

(** Consecutive batches of [n] elements, the last one possibly shorter. *)
Definition batch {A} (n : nat) (l : list A) : list (list A) :=
  batch_fuel (length l) n l.

(** [ds.map(f)].  The function is traced when [map] is called and an
    error it raises surfaces there. *)
Fixpoint ds_map {X Y} (f : X -> Py.result Y) (ds : Dataset X)
  : Py.result (Dataset Y) :=
  match ds with
  | [] => Py.Return []
  | x :: rest =>
      y <- f x ;;
      ys <- ds_map f rest ;;
      Py.Return (y :: ys)
  end.

(** [ds.cache()] and [ds.prefetch(...)] yield the same elements. *)
Definition cache {X} (ds : Dataset X) : Dataset X := ds.
Definition prefetch {X} (ds : Dataset X) : Dataset X := ds.

End Data.

(** ** What the framework computes and the class never inspects

    The decoded pixels of an image file resized to a height and width, the
    order in which the loader shuffles the files, the layers of the
    pretrained network, the initial values of a model's variables, one
    epoch of training (the new variables and the value logged under each
    key), the values [evaluate] returns, and whether this version's
    checkpoint callback saves when its monitored key is missing. *)
Class Framework := {
  fw_numeric :: Numeric;
  W : Type;
  decode_image : string -> Z -> Z -> list num;
  shuffle : list (string * Z) -> list (string * Z);
  backbone_layers : list Keras.Layer;
  initial_weights : list Keras.Layer -> W;
  fit_epoch : Keras.Model W -> Data.Dataset (TF.Tensor num * TF.Tensor num) ->
              Data.Dataset (TF.Tensor num * TF.Tensor num) ->
              W * (string -> num);
  test_metrics : Keras.Model W -> Data.Dataset (TF.Tensor num * TF.Tensor num) ->
                 list num;
  save_unmonitored : bool;
}.

Section Classifier.
Context `{Framework}.

Import Py Keras.

Definition Batches : Type := Data.Dataset (TF.Tensor num * TF.Tensor num).

(** *** Framework entry points *)

(** One batch of [image_dataset_from_directory]: the decoded images, each
    of shape (height, width, 3) under the default colour mode, stacked
    along a new first axis, and their integer labels. *)
Definition load_batch (image_size : Z * Z) (files : list (string * Z))
  : TF.Tensor num * list Z :=
  (TF.mkTensor
     [length files; Z.to_nat image_size.1; Z.to_nat image_size.2; 3%nat]
     (flat_map (fun f => decode_image f.1 image_size.1 image_size.2) files),
   map snd files).

(** [tf.keras.utils.image_dataset_from_directory(directory, image_size=...,
    batch_size=...)] with inferred integer labels: the directory must
    exist and hold at least one image. *)
Definition image_dataset_from_directory
           (disk : gmap string Data.Directory) (directory : string)
           (image_size : Z * Z) (batch_size : Z)
  : result (Data.Dataset (TF.Tensor num * list Z)) :=
  match disk !! directory with
  | None => Raise FileNotFoundError
  | Some d =>
      if batch_size <=? 0 then Raise ValueError
      else match Data.index_directory d with
           | [] => Raise ValueError
           | samples =>
               Return (map (load_batch image_size)
                           (Data.batch (Z.to_nat batch_size) (shuffle samples)))
           end
  end.

(** [tf.keras.applications.EfficientNetV2B3(include_top=False,
    weights='imagenet', input_shape=...)]: three channels and at least 32
    pixels a side are required. *)
Definition EfficientNetV2B3 (input_shape : list Z) : result Layer :=
  match input_shape with
  | [h; w; c] =>
      if (c =? 3) && (32 <=? h) && (32 <=? w)
      then Return (Functional "efficientnetv2-b3" true backbone_layers)
      else Raise ValueError
  | _ => Raise ValueError
  end.

(** [tf.keras.layers.Dense(units, ...)]: a negative size is rejected. *)
Definition Dense_new (units : Z) (activation : string) : result Layer :=
  if units <? 0 then Raise ValueError
  else Return (Leaf (Dense units activation) true).

(** One epoch of [fit]: train, log, run the callbacks, record. *)
Definition fit_one_epoch (x val : Batches) (c : Compiled) (ep : nat)
           (st : list (Callback * CbState) * FitState W)
  : list (Callback * CbState) * FitState W :=
  let '(cbs, s) := st in
  let '(w, value) := fit_epoch (fit_model s) x val in
  let m := mkModel (inputs (fit_model s)) (outputs (fit_model s)) w
                   (compiled (fit_model s)) in
  let kvs := map (fun k => (k, value k)) (log_keys c) in
  let '(cbs', s') :=
    run_callbacks save_unmonitored ep (list_to_map kvs) cbs (set_model m s) in
  (cbs', mkFit (fit_model s') (fit_files s') (stop_training s')
               (record ep kvs (fit_history s'))).

(** The epoch loop: [for epoch in range(epochs)], left as soon as a
    callback has set [stop_training]. *)
Fixpoint fit_loop (x val : Batches) (c : Compiled) (eps : list nat)
         (st : list (Callback * CbState) * FitState W)
  : list (Callback * CbState) * FitState W :=
  match eps with
  | [] => st
  | ep :: rest =>
      let st' := fit_one_epoch x val c ep st in
      if stop_training st'.2 then st' else fit_loop x val c rest st'
  end.

(** [model.fit(x, validation_data=..., epochs=..., callbacks=...)]: needs
    a compiled model; returns the history, leaving the trained model and
    the files the callbacks wrote. *)
Definition Model_fit (m : Model W) (x val : Batches) (epochs : Z)
           (callbacks : list Callback) (files : gmap string (Model W))
  : result (FitState W) :=
  match compiled m with
  | None => Raise RuntimeError
  | Some c =>
      let st0 := (map (fun cb => (cb, cb_init)) callbacks,
                  mkFit m files false (mkHistory [] ∅)) in
      Return (fit_loop x val c (range epochs) st0).2
  end.

(** [model.evaluate(x)]: [x = None] is rejected, and the model must be
    compiled. *)
Definition Model_evaluate (m : Model W) (x : option Batches)
  : result (list num) :=
  match x with
  | None => Raise ValueError
  | Some ds =>
      match compiled m with
      | None => Raise RuntimeError
      | Some _ => Return (test_metrics m ds)
      end
  end.

(** *** The world outside the object *)

(** One subplot of the history figure. *)
Record Subplot := mkSubplot {
  title : string;
  xlabel : string;
  ylabel : string;
  curves : list (string * list num);
}.

(** What reaches the user: printed lines, and figures shown. *)
Inductive Event :=
| Print (line : string)
| PrintUsingGPU (devices : list string)
| Show (figure : list Subplot).

Record World := mkWorld {
  disk : gmap string Data.Directory;
  files : gmap string (Model W);
  gpus : list string;
  console : list Event;
}.

Definition emit (e : Event) (w : World) : World :=
  mkWorld (disk w) (files w) (gpus w) (console w ++ [e]).

Definition with_files (fs : gmap string (Model W)) (w : World) : World :=
  mkWorld (disk w) fs (gpus w) (console w).

(** A method that touches the world. *)
Definition M (A : Type) : Type := World -> result (A * World).

(** [obj.attr] where [obj] may be [None]. *)
Definition attr {A} (obj : option A) : result A :=
  match obj with
  | None => Raise AttributeError
  | Some a => Return a
  end.

(** [d[key]]. *)
Definition getitem {A} (d : gmap string A) (key : string) : result A :=
  match d !! key with
  | None => Raise KeyError
  | Some a => Return a
  end.

(** *** class ThermalImageClassifierEfficientNet *)

(** The attributes [__init__] sets before it loads the datasets. *)
Record Config := mkConfig {
  num_classes : Z;
  height : Z;
  width : Z;
  image_size : Z * Z;
}.

Record Classifier := mkClassifier {
  config : Config;
  train_ds : Batches;
  val_ds : Batches;
  test_ds : Batches;
  model : option (Model W);
  history : option History;
}.

Definition set_model_attr (m : option (Model W)) (self : Classifier)
  : Classifier :=
  mkClassifier (config self) (train_ds self) (val_ds self) (test_ds self)
               m (history self).

Definition set_history_attr (h : option History) (self : Classifier)
  : Classifier :=
  mkClassifier (config self) (train_ds self) (val_ds self) (test_ds self)
               (model self) h.

(** Default arguments of the methods. *)
Definition default_num_classes : Z := 12.
Definition default_batch_size : Z := 32.
Definition default_epochs : Z := 40.
Definition default_model_path : string := "thermal_model_efficientnet.keras".
Definition default_start_layer : Z := 402.
Definition default_dataset : string := "val".
Definition default_learning_rate : DecLit := Dec 1 (-3).

Definition _setup_gpu : M unit := fun w =>
  match gpus w with
  | [] => Return (tt, emit (Print "No GPU detected. Training will proceed on CPU.") w)
  | devices => Return (tt, emit (PrintUsingGPU devices) w)
  end.

Definition _grey_to_rgb (image : TF.Tensor num) : result (TF.Tensor num) :=
  last_dim <- index (TF.shape image) (-1) ;;
  if (last_dim =? 1)%nat then TF.grayscale_to_rgb image else Return image.

Definition _prepare_dataset (self : Config) (directory : string)
           (batch_size : Z) : M Batches := fun w =>
  ds <- image_dataset_from_directory (disk w) directory (image_size self)
                                     batch_size ;;
  ds <- Data.ds_map
          (fun xy : TF.Tensor num * list Z =>
             y <- TF.one_hot (lit (Dec 1 0)) (lit (Dec 0 0)) xy.2
                             (num_classes self) ;;
             Return (xy.1, y))
          ds ;;
  ds <- Data.ds_map
          (fun xy : TF.Tensor num * TF.Tensor num =>
             x <- _grey_to_rgb xy.1 ;;
             Return (x, xy.2))
          ds ;;
  Return (Data.prefetch (Data.cache ds), w).

Definition __init__ (train_dir val_dir test_dir : string) (num_classes : Z)
  : M Classifier := fun w =>
  let height := 75 in
  width <- int (float_mul (float_of_int height) (truediv 320 240)) ;;
  let self := mkConfig num_classes height width (height, width) in
  gpu <- _setup_gpu w ;;
  train <- _prepare_dataset self train_dir default_batch_size gpu.2 ;;
  val <- _prepare_dataset self val_dir default_batch_size train.2 ;;
  test <- _prepare_dataset self test_dir default_batch_size val.2 ;;
  Return (mkClassifier self train.1 val.1 test.1 None None, test.2).

Definition _create_augmentation_model (self : Classifier)
           (input_layer : KTensor) : Model W :=
  let x := call (Leaf (Resizing (height (config self)) (width (config self)))
                      true) input_layer in
  let x := call (Leaf (RandomBrightness (Dec (-5) (-1)) (Dec 5 (-1))) true) x in
  let x := call (Leaf (RandomContrast (Dec 9 (-1))) true) x in
  let x := call (Leaf RandomFlip true) x in
  let x := call (Leaf (Lambda "preprocess_input") true) x in
  Model_new initial_weights input_layer x.

Definition _compile_model (self : Classifier) (learning_rate : DecLit)
  : result Classifier :=
  m <- attr (model self) ;;
  Return (set_model_attr
            (Some (compile (Nadam (lit learning_rate))
                           (CategoricalCrossentropy "val_loss")
                           [Accuracy] m))
            self).

Definition build_model (self : Classifier) : result Classifier :=
  let shape := [height (config self); width (config self); 3] in
  let input_layer := Input shape in
  let augmentation := _create_augmentation_model self input_layer in
  pretrained <- EfficientNetV2B3 shape ;;
  let pretrained := set_trainable false pretrained in
  let x := outputs augmentation in
  let x := call pretrained x in
  let x := call (Leaf GlobalAveragePooling2D true) x in
  dense <- Dense_new (num_classes (config self)) "sigmoid" ;;
  let output := call dense x in
  let self :=
    set_model_attr
      (Some (Model_new initial_weights (inputs augmentation) output)) self in
  _compile_model self default_learning_rate.

(** The callbacks [train] attaches. *)
Definition train_callbacks (model_path : string) : list Callback :=
  [ModelCheckpoint model_path true "val_binary_accuracy";
   ReduceLROnPlateau "loss" (Dec 1 (-1)) 10 1].

Definition train (self : Classifier) (epochs : Z) (model_path : string)
  : M Classifier := fun w =>
  let callbacks := train_callbacks model_path in
  m <- attr (model self) ;;
  s <- Model_fit m (train_ds self) (val_ds self) epochs callbacks (files w) ;;
  Return (set_history_attr (Some (fit_history s))
                           (set_model_attr (Some (fit_model s)) self),
          with_files (fit_files s) w).

(** The loop of [fine_tune]: every layer of [sub[start_layer:]] gets
    [trainable = True], the layers before the slice are left alone. *)
Definition unfreeze_from (start_layer : Z) (sub : list Layer) : list Layer :=
  take (slice_start (length sub) start_layer) sub
  ++ map (set_trainable true) (slice_from sub start_layer).

Definition fine_tune (self : Classifier) (start_layer : Z)
  : result Classifier :=
  m <- attr (model self) ;;
  layer2 <- index (layers m) 2 ;;
  sub <- layer_layers layer2 ;;
  let layer2 :=
    match layer2 with
    | Functional n t _ => Functional n t (unfreeze_from start_layer sub)
    | Leaf _ _ => layer2
    end in
  let self := set_model_attr (Some (with_layer 2 layer2 m)) self in
  _compile_model self (Dec 1 (-4)).

(** The dictionary lookup of [evaluate]: [{...}.get(dataset)]. *)
Definition eval_dataset (self : Classifier) (dataset : string)
  : option Batches :=
  (<["train" := train_ds self]>
     (<["val" := val_ds self]>
        (<["test" := test_ds self]> (∅ : gmap string Batches))))
    !! dataset.

Definition evaluate (self : Classifier) (dataset : string)
  : result (list num) :=
  let eval_ds := eval_dataset self dataset in
  m <- attr (model self) ;;
  Model_evaluate m eval_ds.

Definition save_model (self : Classifier) (path : string) : M Classifier :=
  fun w =>
  m <- attr (model self) ;;
  Return (self, with_files (save path m (files w)) w).

Definition no_history_message : string :=
  "No training history available. Train the model first.".

(** The figure [plot_training_history] draws from four recorded curves. *)
Definition history_figure (loss val_loss accuracy val_accuracy : list num)
  : list Subplot :=
  [mkSubplot "Model Loss" "Epoch" "Loss"
     [("Training Loss", loss); ("Validation Loss", val_loss)];
   mkSubplot "Model Accuracy" "Epoch" "Accuracy"
     [("Training Accuracy", accuracy); ("Validation Accuracy", val_accuracy)]].

Definition plot_training_history (self : Classifier) : M Classifier :=
  fun w =>
  match history self with
  | None => Return (self, emit (Print no_history_message) w)
  | Some h =>
      loss <- getitem (Keras.history h) "loss" ;;
      val_loss <- getitem (Keras.history h) "val_loss" ;;
      accuracy <- getitem (Keras.history h) "accuracy" ;;
      val_accuracy <- getitem (Keras.history h) "val_accuracy" ;;
      Return (self,
              emit (Show (history_figure loss val_loss accuracy val_accuracy)) w)
  end.

End Classifier.

(** ** What the methods compute, in closed form *)

Section Closed.
Context `{Framework}.

Import Py Keras.

(** The element [_prepare_dataset] makes of a loaded batch: the images
    as they are, the labels one-hot over [depth] classes. *)
Definition encoded (depth : Z) (xy : TF.Tensor num * list Z)
  : TF.Tensor num * TF.Tensor num :=
  (xy.1,
   TF.mkTensor [length xy.2; Z.to_nat depth]
     (flat_map (TF.one_hot_row (lit (Dec 1 0)) (lit (Dec 0 0)) (Z.to_nat depth))
               xy.2)).

(** The dataset [_prepare_dataset] returns for a directory [d]. *)
Definition prepared (self : Config) (d : Data.Directory) (batch_size : Z)
  : Batches :=
  map (encoded (num_classes self))
      (map (load_batch (image_size self))
           (Data.batch (Z.to_nat batch_size) (shuffle (Data.index_directory d)))).

(** The layers of the model [build_model] assembles, in [model.layers]
    order. *)
Definition built_layers (self : Classifier) : list Layer :=
  [Leaf (InputLayer [None; Some (height (config self));
                     Some (width (config self)); Some 3]) true;
   Leaf (Resizing (height (config self)) (width (config self))) true;
   Leaf (RandomBrightness (Dec (-5) (-1)) (Dec 5 (-1))) true;
   Leaf (RandomContrast (Dec 9 (-1))) true;
   Leaf RandomFlip true;
   Leaf (Lambda "preprocess_input") true;
   Functional "efficientnetv2-b3" false
              (map (set_trainable false) backbone_layers);
   Leaf GlobalAveragePooling2D true;
   Leaf (Dense (num_classes (config self)) "sigmoid") true].

(** The model [build_model] stores: the chain from the input layer to the
    dense head, compiled with the initial learning rate. *)
Definition built_model (self : Classifier) : Model W :=
  mkModel
    (Input [height (config self); width (config self); 3])
    (mkKTensor (Leaf (InputLayer [None; Some (height (config self));
                                  Some (width (config self)); Some 3]) true)
               (tail (built_layers self)))
    (initial_weights (built_layers self))
    (Some (mkCompiled (Nadam (lit (Dec 1 (-3))))
                      (CategoricalCrossentropy "val_loss") [Accuracy])).

(** The model is in the state the class compiles it to. *)
Definition class_compiled (m : Model W) : Prop :=
  exists lr, compiled m =
             Some (mkCompiled (Nadam lr) (CategoricalCrossentropy "val_loss")
                              [Accuracy]).

(** The callback objects of [train] with what they remember. *)
Definition train_cbs (model_path : string) (checkpoint plateau : CbState)
  : list (Callback * CbState) :=
  [(ModelCheckpoint model_path true "val_binary_accuracy", checkpoint);
   (ReduceLROnPlateau "loss" (Dec 1 (-1)) 10 1, plateau)].

(** [ReduceLROnPlateau] fed the losses of consecutive epochs. *)
Fixpoint plateau_run (factor : DecLit) (patience : Z) (losses : list num)
         (c : CbState) (s : FitState W) : CbState * FitState W :=
  match losses with
  | [] => (c, s)
  | l :: rest =>
      let '(c', s') :=
        reduce_lr_on_epoch_end "loss" factor patience {["loss" := l]} c s in
      plateau_run factor patience rest c' s'
  end.

End Closed.

(** ** The usage script at the end of the file *)

Section Script.
Context `{Framework}.

Import Py.

(** [Path(a) / b] for a relative [b], read back with [str]. *)
Definition path_join (a b : string) : string := a +:+ "/" +:+ b.

Definition base_dir : string :=
  "/content/drive/MyDrive/Thermal Imaging Project/Greyscale Images/Dataset".

(** The body of [if __name__ == "__main__"]. *)
Definition main : M unit := fun w =>
  let model_path := path_join base_dir "EfficientNetV2B3.keras" in
  r <- __init__ (path_join base_dir "train") (path_join base_dir "val")
                (path_join base_dir "test") default_num_classes w ;;
  classifier <- build_model r.1 ;;
  r <- train classifier 40 model_path r.2 ;;
  r <- plot_training_history r.1 r.2 ;;
  classifier <- fine_tune r.1 402 ;;
  r <- train classifier 40 model_path r.2 ;;
  metrics <- evaluate r.1 "val" ;;
  r <- save_model r.1 model_path r.2 ;;
  Return (tt, r.2).

(** The line [_setup_gpu] prints in a world. *)
Definition gpu_line (w : World) : Event :=
  match gpus w with
  | [] => Print "No GPU detected. Training will proceed on CPU."
  | devices => PrintUsingGPU devices
  end.


(** The state [fit] ends in when [train] runs it on the model [m],
    compiled as [c], with the saved files [fs]. *)
Definition train_run (self : Classifier) (m : Keras.Model W)
           (c : Keras.Compiled) (epochs : Z) (model_path : string)
           (fs : gmap string (Keras.Model W)) : Keras.FitState W :=
  (fit_loop (train_ds self) (val_ds self) c (range epochs)
            (train_cbs model_path Keras.cb_init Keras.cb_init,
             Keras.mkFit m fs false (Keras.mkHistory [] ∅))).2.

(** The keys under which a model compiled by the class logs an epoch. *)
Definition class_keys : list string :=
  ["loss"; "accuracy"; "val_loss"; "val_accuracy"].

(** A history of a model compiled by the class: empty before the first
    epoch, and from then on one curve per logged key, each with one value
    per recorded epoch. *)
Definition class_history (h : Keras.History) : Prop :=
  (Keras.epoch h = [] -> Keras.history h = ∅)
  /\ (Keras.epoch h <> [] ->
      forall k, In k class_keys ->
                exists l, Keras.history h !! k = Some l
                          /\ length l = length (Keras.epoch h)).

End Script.

(** ** A small instance of the framework, to run the methods on *)

Module Toy.

Import Py.

Definition lit_Q (d : DecLit) : Q :=
  Qred (inject_Z (mant d) * Qpower (10 # 1) (exp10 d)).

Definition ltb_Q (a b : Q) : bool := negb (Qle_bool b a).

#[export] Instance numeric : Numeric := {
  num := Q;
  lit := lit_Q;
  num_mul a b := Qred (a * b);
  num_add a b := Qred (a + b);
  num_sub a b := Qred (a - b);
  num_ltb := ltb_Q;
}.

(** Three layers standing for the pretrained network. *)
Definition backbone : list Keras.Layer :=
  [Keras.Leaf (Keras.Backbone "stem_conv") true;
   Keras.Leaf (Keras.Backbone "block6_conv") true;
   Keras.Leaf (Keras.Backbone "top_conv") true].

(** The variables are summarised by the number of epochs trained.  The
    first epoch reaches the best validation accuracy, the loss never moves
    after it. *)
Definition epoch_value (trained : nat) (key : string) : Q :=
  if String.eqb key "val_accuracy"
  then (if (trained =? 0)%nat then 9 # 10 else 1 # 10)
  else if String.eqb key "accuracy" then 1 # 2
  else 1 # 1.

Definition framework (save_unmonitored : bool) : Framework := {|
  fw_numeric := numeric;
  W := nat;
  decode_image := fun _ h w => repeat (0 # 1) (Z.to_nat (h * w * 3));
  shuffle := fun files => files;
  backbone_layers := backbone;
  initial_weights := fun _ => O;
  fit_epoch := fun m _ _ =>
    (S (Keras.weights m), epoch_value (Keras.weights m));
  test_metrics := fun m _ => [1 # 1; 1 # 2];
  save_unmonitored := save_unmonitored;
|}.

Definition two_classes : Data.Directory :=
  [Data.mkClassDir "cracked" ["c1.png"; "c2.png"];
   Data.mkClassDir "healthy" ["h1.png"]].

Definition world (b : bool) : @World (framework b) :=
  @mkWorld (framework b)
    (<["train" := two_classes]>
       (<["val" := two_classes]> (<["test" := two_classes]> ∅)))
    ∅ [] [].

(** A grayscale batch of one 1x2 image. *)
Definition grey_batch : TF.Tensor Q :=
  TF.mkTensor [1%nat; 1%nat; 2%nat; 1%nat] [3 # 10; 7 # 10].

(** The attributes the constructor sets for [n] classes. *)
Definition config (n : Z) : Config := mkConfig n 75 100 (75, 100).

(** The classifier the constructor returns in [world b] for the default
    twelve classes, and the world it leaves. *)
Definition loaded (b : bool) : @Classifier (framework b) :=
  @mkClassifier (framework b) (config default_num_classes)
    (@prepared (framework b) (config default_num_classes) two_classes
               default_batch_size)
    (@prepared (framework b) (config default_num_classes) two_classes
               default_batch_size)
    (@prepared (framework b) (config default_num_classes) two_classes
               default_batch_size)
    None None.

Definition started (b : bool) : @World (framework b) :=
  @emit (framework b)
        (@Print (framework b) "No GPU detected. Training will proceed on CPU.")
        (world b).

(** The same classifier after [build_model]. *)
Definition built (b : bool) : @Classifier (framework b) :=
  @set_model_attr (framework b)
    (Some (@built_model (framework b) (loaded b))) (loaded b).

(** The state [fit] starts from on the built model. *)
Definition fit_start (b : bool) : @Keras.FitState numeric nat :=
  Keras.mkFit (@built_model (framework b) (loaded b)) ∅ false
              (Keras.mkHistory [] ∅).

(** What a run of [train] leaves: the variables in the file at [path], the
    variables of the model, its learning rate, and the validation accuracies
    recorded. *)
Definition outcome (b : bool) (epochs : Z) (path : string)
  : option (option nat * option nat * option Q * option (list Q)) :=
  match @train (framework b) (built b) epochs path (started b) with
  | inl _ => None
  | inr (self, w) =>
      Some (Keras.weights <$> @files (framework b) w !! path,
            Keras.weights <$> @model (framework b) self,
            @model (framework b) self ≫= Keras.model_lr,
            @history (framework b) self
              ≫= (fun h => Keras.history h !! "val_accuracy"))
  end.

(** The directories of the usage script, each holding [two_classes], on a
    machine with one GPU. *)
Definition drive (b : bool) : @World (framework b) :=
  @mkWorld (framework b)
    (<[path_join base_dir "train" := two_classes]>
       (<[path_join base_dir "val" := two_classes]>
          (<[path_join base_dir "test" := two_classes]> ∅)))
    ∅ ["/physical_device:GPU:0"] [].

(** A world in which the test directory is missing. *)
Definition no_test_dir (b : bool) : @World (framework b) :=
  @mkWorld (framework b)
    (<["train" := two_classes]> (<["val" := two_classes]> ∅)) ∅ [] [].

(** A model in which the augmentation layers are one nested model, so
    that the frozen backbone is entry 2 of [model.layers]. *)
Definition nested_model : Keras.Model nat :=
  let input := Keras.Input [75; 100; 3] in
  let augmentation :=
    Keras.Functional "augmentation" true
      [Keras.Leaf (Keras.Resizing 75 100) true;
       Keras.Leaf Keras.RandomFlip true] in
  let pretrained :=
    Keras.Functional "efficientnetv2-b3" false
                     (map (Keras.set_trainable false) backbone) in
  Keras.compile
    (Keras.Nadam (lit default_learning_rate))
    (Keras.CategoricalCrossentropy "val_loss") [Keras.Accuracy]
    (Keras.Model_new (fun _ => O) input
       (Keras.call (Keras.Leaf (Keras.Dense 12 "sigmoid") true)
          (Keras.call (Keras.Leaf Keras.GlobalAveragePooling2D true)
             (Keras.call pretrained (Keras.call augmentation input))))).

Definition nested (b : bool) : @Classifier (framework b) :=
  @set_model_attr (framework b) (Some nested_model) (loaded b).

End Toy.

(** * Properties *)

(** ** Python helpers *)

Lemma bind_return {A B} (a : A) (k : A -> Py.result B) :
  Py.bind (Py.Return a) k = k a.
Proof. reflexivity. Qed.

Lemma index_last {A} (xs : list A) (x : A) :
  Py.index (xs ++ [x]) (-1) = Py.Return x.
Proof.
  unfold Py.index. rewrite length_app. cbn [length].
  replace (-1 <? 0) with true by reflexivity.
  replace (-1 + Z.of_nat (length xs + 1)) with (Z.of_nat (length xs)) by lia.
  replace (Z.of_nat (length xs) <? 0) with false by (symmetry; apply Z.ltb_ge; lia).
  replace (Z.of_nat (length xs + 1) <=? Z.of_nat (length xs)) with false
    by (symmetry; apply Z.leb_gt; lia).
  cbn [orb]. rewrite Nat2Z.id.
  rewrite lookup_app_r by lia. rewrite Nat.sub_diag. reflexivity.
Qed.

Lemma ds_map_total {X Y} (f : X -> Py.result Y) (g : X -> Y) (ds : Data.Dataset X) :
  (forall x, In x ds -> f x = Py.Return (g x)) ->
  Data.ds_map f ds = Py.Return (map g ds).
Proof.
  induction ds as [|x rest IH]; intros Hf; [reflexivity|].
  cbn [Data.ds_map map].
  rewrite (Hf x) by (left; reflexivity). rewrite bind_return.
  rewrite IH by (intros y Hy; apply Hf; right; exact Hy).
  reflexivity.
Qed.

(** ** Tensors *)

Lemma replicated_lookup {A} (l : list A) (i : nat) :
  flat_map (fun x => [x; x; x]) l !! i = l !! (i / 3)%nat.
Proof.
  revert i. induction l as [|x l IH]; intros i.
  - cbn. rewrite !lookup_nil. reflexivity.
  - cbn [flat_map app].
    destruct i as [|[|[|j]]]; try reflexivity.
    replace (S (S (S j))) with (1 * 3 + j)%nat by lia.
    rewrite Nat.div_add_l by lia.
    cbn [lookup list_lookup Nat.add Nat.mul]. apply IH.
Qed.

Lemma replicated_length {A} (l : list A) :
  length (flat_map (fun x => [x; x; x]) l) = (3 * length l)%nat.
Proof. induction l as [|x l IH]; cbn [flat_map app length]; lia. Qed.


(** ** The classifier's methods *)

Section Properties.
Context `{Framework}.

Import Py.

(** *** _grey_to_rgb *)

Lemma grey_to_rgb_last_dim (image : TF.Tensor num) (sh : list nat) (c : nat) :
  TF.shape image = sh ++ [c] ->
  _grey_to_rgb image =
    if (c =? 1)%nat then TF.grayscale_to_rgb image else Return image.
Proof.
  intros Hsh. unfold _grey_to_rgb. rewrite Hsh, index_last, bind_return.
  reflexivity.
Qed.

(** C9: on a batch of shape (n, h, w, c), [_grey_to_rgb] returns, when
    c = 1, the batch of shape (n, h, w, 3) in which every value stands three
    times in a row (element i of the result is element i / 3 of the input,
    so the three channels of a pixel repeat its grey value and the batch and
    spatial dimensions are those of the input), and when c is not 1 the
    batch itself. *)
Theorem grey_to_rgb_batch (image : TF.Tensor num) (n h w c : nat) :
  TF.shape image = [n; h; w; c] ->
  let rgb := TF.mkTensor [n; h; w; 3%nat]
                         (flat_map (fun x => [x; x; x]) (TF.data image)) in
  _grey_to_rgb image = Return (if (c =? 1)%nat then rgb else image)
  /\ (forall i, TF.data rgb !! i = TF.data image !! (i / 3)%nat)
  /\ length (TF.data rgb) = (3 * length (TF.data image))%nat
  /\ TF.numel (TF.shape rgb) = (3 * TF.numel [n; h; w; 1%nat])%nat.
Proof.
  intros Hsh rgb. repeat split.
  - rewrite (grey_to_rgb_last_dim image [n; h; w] c Hsh).
    destruct (Nat.eqb_spec c 1) as [->|Hc]; [|reflexivity].
    unfold TF.grayscale_to_rgb. rewrite Hsh. reflexivity.
  - intros i. apply replicated_lookup.
  - apply replicated_length.
  - cbn [TF.shape rgb TF.numel foldr]. lia.
Qed.

Lemma grey_to_rgb_well_formed (image : TF.Tensor num) (n h w : nat) :
  TF.shape image = [n; h; w; 1%nat] ->
  TF.well_formed image ->
  exists rgb, _grey_to_rgb image = Return rgb
              /\ TF.shape rgb = [n; h; w; 3%nat]
              /\ TF.well_formed rgb.
Proof.
  intros Hsh Hwf. unfold TF.well_formed in Hwf. rewrite Hsh in Hwf.
  rewrite (grey_to_rgb_last_dim image [n; h; w] 1 Hsh).
  unfold TF.grayscale_to_rgb. rewrite Hsh. cbn [length Nat.ltb Nat.leb last].
  eexists. split; [reflexivity|]. split; [reflexivity|].
  unfold TF.well_formed. cbn [TF.data TF.shape removelast app].
  rewrite replicated_length, Hwf. cbn [TF.numel foldr]. lia.
Qed.

(** *** plot_training_history *)

(** C4: while the stored history is None, [plot_training_history] returns
    normally; the classifier is the one it was called on, and the only thing
    that reaches the user is the printed message: no figure is shown, and
    the disk, the saved files and the devices are untouched. *)
Theorem plot_without_history (self : Classifier) (w : World) :
  history self = None ->
  plot_training_history self w
  = Return (self,
            mkWorld (disk w) (files w) (gpus w)
                    (console w ++ [Print no_history_message])).
Proof.
  intros Hh. unfold plot_training_history. rewrite Hh. reflexivity.
Qed.

(** *** evaluate *)

Lemma eval_dataset_known (self : Classifier) :
  eval_dataset self "train" = Some (train_ds self)
  /\ eval_dataset self "val" = Some (val_ds self)
  /\ eval_dataset self "test" = Some (test_ds self).
Proof.
  unfold eval_dataset. split; [|split].
  - apply lookup_insert_eq.
  - rewrite lookup_insert_ne by discriminate. apply lookup_insert_eq.
  - rewrite !lookup_insert_ne by discriminate. apply lookup_insert_eq.
Qed.

Lemma eval_dataset_unknown (self : Classifier) (dataset : string) :
  dataset <> "train" -> dataset <> "val" -> dataset <> "test" ->
  eval_dataset self dataset = None.
Proof.
  intros Htrain Hval Htest. unfold eval_dataset.
  rewrite !lookup_insert_ne by congruence. apply lookup_empty.
Qed.

(** C5: on a classifier with a compiled model, [evaluate] evaluates the
    training, validation or test dataset for the names train, val and test;
    for every other name the lookup yields None without raising and the
    evaluation call that follows raises. *)
Theorem evaluate_by_name (self : Classifier) (m : Keras.Model W)
        (c : Keras.Compiled) (dataset : string) :
  model self = Some m ->
  Keras.compiled m = Some c ->
  dataset <> "train" -> dataset <> "val" -> dataset <> "test" ->
  evaluate self "train" = Return (test_metrics m (train_ds self))
  /\ evaluate self "val" = Return (test_metrics m (val_ds self))
  /\ evaluate self "test" = Return (test_metrics m (test_ds self))
  /\ eval_dataset self dataset = None
  /\ evaluate self dataset = Raise ValueError.
Proof.
  intros Hm Hc Htrain Hval Htest.
  destruct (eval_dataset_known self) as (Etrain & Eval & Etest).
  pose proof (eval_dataset_unknown self dataset Htrain Hval Htest) as Enone.
  unfold evaluate. rewrite Hm. cbn [attr]. rewrite !bind_return.
  rewrite Etrain, Eval, Etest, Enone. unfold Model_evaluate. rewrite Hc.
  repeat split.
Qed.

(** *** The state before build_model *)

Lemma init_attributes (train_dir val_dir test_dir : string) (n : Z)
      (w w' : World) (self : Classifier) :
  __init__ train_dir val_dir test_dir n w = Return (self, w') ->
  model self = None /\ history self = None
  /\ config self = mkConfig n 75 100 (75, 100).
Proof.
  unfold __init__.
  replace (int (float_mul (float_of_int 75) (truediv 320 240)))
    with (@Return Z 100) by (vm_compute; reflexivity).
  rewrite bind_return.
  destruct (_setup_gpu w) as [e|gpu]; [discriminate|]. rewrite bind_return.
  destruct (_prepare_dataset _ train_dir _ _) as [e|tr]; [discriminate|].
  rewrite bind_return.
  destruct (_prepare_dataset _ val_dir _ _) as [e|va]; [discriminate|].
  rewrite bind_return.
  destruct (_prepare_dataset _ test_dir _ _) as [e|te]; [discriminate|].
  rewrite bind_return.
  intros Heq. inversion Heq; subst. repeat split.
Qed.

(** C10: a classifier as the constructor returns it has no model, and on
    it [train], [evaluate], [fine_tune] and [save_model] raise (the
    attribute access on None, whatever their arguments), while
    [plot_training_history] returns normally. *)
Theorem methods_before_build (train_dir val_dir test_dir : string) (n : Z)
        (w0 w1 : World) (self : Classifier) :
  __init__ train_dir val_dir test_dir n w0 = Return (self, w1) ->
  model self = None
  /\ (forall epochs model_path w,
         train self epochs model_path w = Raise AttributeError)
  /\ (forall dataset, evaluate self dataset = Raise AttributeError)
  /\ (forall start_layer, fine_tune self start_layer = Raise AttributeError)
  /\ (forall path w, save_model self path w = Raise AttributeError)
  /\ (forall w, plot_training_history self w
                = Return (self, emit (Print no_history_message) w)).
Proof.
  intros Hinit.
  destruct (init_attributes _ _ _ _ _ _ _ Hinit) as (Hm & Hh & _).
  split; [exact Hm|].
  unfold train, evaluate, fine_tune, save_model, plot_training_history.
  rewrite Hm, Hh. repeat split.
Qed.

(** *** build_model *)

Lemma build_model_cases (self : Classifier) :
  build_model self =
    if (32 <=? height (config self)) && (32 <=? width (config self))
       && negb (num_classes (config self) <? 0)
    then Return (set_model_attr (Some (built_model self)) self)
    else Raise ValueError.
Proof.
  unfold build_model, EfficientNetV2B3, Dense_new.
  replace (3 =? 3) with true by reflexivity. cbn [andb].
  destruct (32 <=? height (config self)); [|reflexivity].
  destruct (32 <=? width (config self)); [|reflexivity].
  cbn [andb]. rewrite bind_return.
  destruct (num_classes (config self) <? 0); reflexivity.
Qed.

Lemma set_trainable_flag (b : bool) (l : Keras.Layer) :
  Keras.trainable (Keras.set_trainable b l) = b.
Proof. destruct l; reflexivity. Qed.

(** C6: a classifier as the constructor returns it has height 75 and width
    int(75 * (320/240)) = 100, and (for a class count that is not negative)
    [build_model] on it stores a model whose input shape is the batch axis
    followed by (75, 100, 3), the configured (height, width, 3). *)
Theorem build_model_input_shape (train_dir val_dir test_dir : string) (n : Z)
        (w0 w1 : World) (self : Classifier) :
  __init__ train_dir val_dir test_dir n w0 = Return (self, w1) ->
  0 <= n ->
  height (config self) = 75
  /\ width (config self) = 100
  /\ int (float_mul (float_of_int 75) (truediv 320 240)) = Return 100
  /\ exists m,
       build_model self = Return (set_model_attr (Some m) self)
       /\ Keras.input_shape m
          = Some [None; Some (height (config self));
                  Some (width (config self)); Some 3]
       /\ Keras.input_shape m = Some [None; Some 75; Some 100; Some 3].
Proof.
  intros Hinit Hn.
  destruct (init_attributes _ _ _ _ _ _ _ Hinit) as (_ & _ & Hcfg).
  rewrite Hcfg. cbn [height width].
  split; [reflexivity|]. split; [reflexivity|].
  split; [vm_compute; reflexivity|].
  exists (built_model self). rewrite build_model_cases, Hcfg.
  cbn [height width num_classes].
  replace (32 <=? 75) with true by reflexivity.
  replace (32 <=? 100) with true by reflexivity.
  replace (n <? 0) with false by (symmetry; apply Z.ltb_ge; exact Hn).
  split; [reflexivity|].
  unfold Keras.input_shape, built_model. cbn. rewrite Hcfg. split; reflexivity.
Qed.

(** *** _prepare_dataset *)

Lemma loaded_batch_is_rgb (image_size : Z * Z) (files : list (string * Z)) :
  _grey_to_rgb (load_batch image_size files).1
  = Return (load_batch image_size files).1.
Proof.
  rewrite (grey_to_rgb_last_dim _
             [length files; Z.to_nat image_size.1; Z.to_nat image_size.2] 3%nat)
    by reflexivity.
  reflexivity.
Qed.

Lemma prepare_dataset_spec (self : Config) (directory : string)
      (batch_size : Z) (w : World) (d : Data.Directory) :
  disk w !! directory = Some d ->
  Data.index_directory d <> [] ->
  0 < batch_size ->
  0 <= num_classes self ->
  _prepare_dataset self directory batch_size w
  = Return (prepared self d batch_size, w).
Proof.
  intros Hdir Hfiles Hbs Hn.
  unfold _prepare_dataset, image_dataset_from_directory. rewrite Hdir.
  replace (batch_size <=? 0) with false by (symmetry; apply Z.leb_gt; exact Hbs).
  destruct (Data.index_directory d) as [|s samples] eqn:Hs; [congruence|].
  rewrite bind_return.
  rewrite (ds_map_total _ (encoded (num_classes self))).
  2:{ intros xy _. unfold TF.one_hot.
      replace (num_classes self <? 0) with false
        by (symmetry; apply Z.ltb_ge; exact Hn).
      rewrite bind_return. reflexivity. }
  rewrite bind_return.
  rewrite (ds_map_total _ (fun xy => xy)).
  2:{ intros xy Hin. apply in_map_iff in Hin as (b & <- & Hb).
      apply in_map_iff in Hb as (fs & <- & _).
      cbn [encoded fst]. rewrite loaded_batch_is_rgb, bind_return.
      reflexivity. }
  rewrite bind_return, map_id. unfold prepared. rewrite Hs. reflexivity.
Qed.

Lemma prepare_dataset_no_images (self : Config) (directory : string)
      (batch_size : Z) (w : World) (d : Data.Directory) :
  disk w !! directory = Some d ->
  Data.index_directory d = [] ->
  raises (_prepare_dataset self directory batch_size w) = true.
Proof.
  intros Hdir Hfiles.
  unfold _prepare_dataset, image_dataset_from_directory.
  rewrite Hdir, Hfiles. destruct (batch_size <=? 0); reflexivity.
Qed.

(** C1, as the code has it: for a dataset directory that holds at least one
    image in its class subdirectories, [_prepare_dataset] returns the
    one-hot encoded batches for every class count that is not negative,
    equal to the number of subdirectories or not, and leaves the world as
    it was: the class count is not compared with the directory. *)
Theorem prepare_dataset_any_class_count (self : Config) (directory : string)
        (batch_size : Z) (w : World) (d : Data.Directory) :
  disk w !! directory = Some d ->
  Data.index_directory d <> [] ->
  0 < batch_size ->
  0 <= num_classes self ->
  _prepare_dataset self directory batch_size w
  = Return (prepared self d batch_size, w)
  /\ raises (_prepare_dataset self directory batch_size w) = false.
Proof.
  intros Hdir Hfiles Hbs Hn.
  rewrite (prepare_dataset_spec self directory batch_size w d) by assumption.
  split; reflexivity.
Qed.

(** *** fine_tune *)

(** The loop of [fine_tune] on a list of layers, for a start that is not
    negative: the layers before the start are as they were, the others are
    set trainable. *)
Lemma unfreeze_from_lookup (start_layer : Z) (sub : list Keras.Layer) (i : nat) :
  0 <= start_layer ->
  unfreeze_from start_layer sub !! i
  = if Z.of_nat i <? start_layer then sub !! i
    else Keras.set_trainable true <$> sub !! i.
Proof.
  intros Hpos. unfold unfreeze_from, slice_from, slice_start.
  replace (start_layer <? 0) with false by (symmetry; apply Z.ltb_ge; exact Hpos).
  set (k := Z.to_nat (Z.min start_layer (Z.of_nat (length sub)))).
  assert (Hk : (k <= length sub)%nat) by (subst k; lia).
  destruct (Z.ltb_spec (Z.of_nat i) start_layer) as [Hlt|Hge].
  - destruct (decide (i < k)%nat) as [Hik|Hik].
    + rewrite lookup_app_l by (rewrite length_take; lia).
      apply lookup_take_lt. exact Hik.
    + rewrite lookup_app_r by (rewrite length_take; lia).
      rewrite list_lookup_fmap, lookup_drop, length_take.
      rewrite !lookup_ge_None_2 by (subst k; lia). reflexivity.
  - rewrite lookup_app_r by (rewrite length_take; subst k; lia).
    rewrite list_lookup_fmap, lookup_drop, length_take.
    f_equal. f_equal. subst k. lia.
Qed.

Lemma fine_tune_built (self : Classifier) (start_layer : Z) :
  fine_tune (set_model_attr (Some (built_model self)) self) start_layer
  = Raise AttributeError.
Proof. reflexivity. Qed.

Lemma build_model_inv (self self' : Classifier) :
  build_model self = Return self' ->
  self' = set_model_attr (Some (built_model self)) self.
Proof.
  rewrite build_model_cases.
  destruct (_ && _); [|discriminate].
  intros Heq. inversion Heq. reflexivity.
Qed.

(** C2, as the code has it: after [build_model] every layer of the backbone
    reports not trainable (the backbone is entry 6 of [model.layers]), but
    entry 2, which [fine_tune] takes for the backbone, is the
    RandomBrightness augmentation layer; it has no [layers] attribute, so
    [fine_tune] raises for every start layer and unfreezes nothing. *)
Theorem fine_tune_after_build (self self' : Classifier) (start_layer : Z) :
  build_model self = Return self' ->
  exists m,
    model self' = Some m
    /\ Keras.layers m !! 6%nat
       = Some (Keras.Functional "efficientnetv2-b3" false
                 (map (Keras.set_trainable false) backbone_layers))
    /\ Forall (fun l => Keras.trainable l = false)
              (map (Keras.set_trainable false) backbone_layers)
    /\ Keras.layers m !! 2%nat
       = Some (Keras.Leaf (Keras.RandomBrightness (Dec (-5) (-1)) (Dec 5 (-1)))
                          true)
    /\ fine_tune self' start_layer = Raise AttributeError.
Proof.
  intros Hbuild. apply build_model_inv in Hbuild. subst self'.
  exists (built_model self). split; [reflexivity|].
  split; [reflexivity|]. split.
  - apply Forall_forall. intros l Hl.
    apply list_elem_of_In, in_map_iff in Hl as (l0 & <- & _).
    apply set_trainable_flag.
  - split; [reflexivity|]. apply fine_tune_built.
Qed.

(** *** train *)

Lemma class_log_keys (c : Keras.Compiled) :
  Keras.metrics c = [Keras.Accuracy] ->
  Keras.log_keys c = ["loss"; "accuracy"; "val_loss"; "val_accuracy"].
Proof. intros Hm. unfold Keras.log_keys. rewrite Hm. reflexivity. Qed.

Lemma class_logs (c : Keras.Compiled) (value : string -> num) :
  Keras.metrics c = [Keras.Accuracy] ->
  let logs : gmap string num :=
    list_to_map (map (fun k => (k, value k)) (Keras.log_keys c)) in
  logs !! "val_binary_accuracy" = None
  /\ logs !! "loss" = Some (value "loss")
  /\ logs !! "val_accuracy" = Some (value "val_accuracy").
Proof.
  intros Hm logs. subst logs. rewrite (class_log_keys c Hm).
  cbn [map list_to_map foldr uncurry fst snd].
  split; [|split].
  - rewrite !lookup_insert_ne by discriminate. apply lookup_empty.
  - apply lookup_insert_eq.
  - rewrite !lookup_insert_ne by discriminate. apply lookup_insert_eq.
Qed.

Lemma set_lr_weights (lr : num) (m : Keras.Model W) :
  Keras.weights (Keras.set_lr lr m) = Keras.weights m.
Proof. unfold Keras.set_lr. destruct (Keras.compiled m); reflexivity. Qed.

Lemma set_lr_class (lr : num) (m : Keras.Model W) :
  class_compiled m -> class_compiled (Keras.set_lr lr m).
Proof.
  intros [lr0 Hc]. unfold Keras.set_lr. rewrite Hc. exists lr. reflexivity.
Qed.

(** [ReduceLROnPlateau] touches nothing but what it remembers and the
    learning rate. *)
Lemma reduce_lr_frame (mon : string) (factor : DecLit) (patience : Z)
      (logs : gmap string num) (c : Keras.CbState) (s : Keras.FitState W) :
  let r := Keras.reduce_lr_on_epoch_end mon factor patience logs c s in
  Keras.stop_training r.2 = Keras.stop_training s
  /\ Keras.fit_files r.2 = Keras.fit_files s
  /\ Keras.fit_history r.2 = Keras.fit_history s
  /\ Keras.weights (Keras.fit_model r.2) = Keras.weights (Keras.fit_model s)
  /\ (class_compiled (Keras.fit_model s) ->
      class_compiled (Keras.fit_model r.2)).
Proof.
  unfold Keras.reduce_lr_on_epoch_end.
  repeat case_match; cbn; repeat split; try tauto.
  all: try apply set_lr_weights.
  all: intros Hc; apply set_lr_class; exact Hc.
Qed.

(** One epoch of [train] on a model compiled by the class: the callbacks
    stay the two of [train], nobody asks to stop, the epoch is recorded,
    and the checkpoint callback, which finds no value under its monitored
    key, either never writes or writes the model of this epoch. *)
Lemma train_epoch (x val : Batches) (c : Keras.Compiled) (ep : nat)
      (path : string) (c1 c2 : Keras.CbState) (s : Keras.FitState W) :
  Keras.metrics c = [Keras.Accuracy] ->
  class_compiled (Keras.fit_model s) ->
  let r := fit_one_epoch x val c ep (train_cbs path c1 c2, s) in
  let trained :=
    Keras.mkModel (Keras.inputs (Keras.fit_model s))
                  (Keras.outputs (Keras.fit_model s))
                  (fit_epoch (Keras.fit_model s) x val).1
                  (Keras.compiled (Keras.fit_model s)) in
  (exists c2', r.1 = train_cbs path c1 c2')
  /\ Keras.stop_training r.2 = Keras.stop_training s
  /\ class_compiled (Keras.fit_model r.2)
  /\ Keras.epoch (Keras.fit_history r.2)
     = Keras.epoch (Keras.fit_history s) ++ [ep]
  /\ Keras.weights (Keras.fit_model r.2) = Keras.weights trained
  /\ Keras.fit_files r.2
     = if save_unmonitored then <[path := trained]> (Keras.fit_files s)
       else Keras.fit_files s.
Proof.
  intros Hm Hc r trained. subst r trained.
  unfold fit_one_epoch, train_cbs.
  destruct (fit_epoch (Keras.fit_model s) x val) as [w value] eqn:Hfit.
  cbn [fst snd Keras.run_callbacks Keras.on_epoch_end].
  destruct (class_logs c value Hm) as (Hmon & _ & _).
  unfold Keras.checkpoint_on_epoch_end. rewrite Hmon.
  set (logs := list_to_map _).
  set (s2 := if save_unmonitored then _ else _).
  pose proof (reduce_lr_frame "loss" (Dec 1 (-1)) 10 logs c2 s2) as Hframe.
  destruct (Keras.reduce_lr_on_epoch_end "loss" _ 10 logs c2 s2) as [c2' s3].
  cbn [fst snd] in Hframe.
  destruct Hframe as (Hstop & Hfiles & Hhist & Hw & Hcls).
  cbn [fst snd Keras.fit_model Keras.fit_files Keras.stop_training
       Keras.fit_history Keras.record Keras.epoch Keras.weights].
  split; [exists c2'; reflexivity|].
  rewrite Hstop, Hfiles, Hhist, Hw.
  assert (Hc2 : class_compiled (Keras.fit_model s2)).
  { destruct Hc as [lr Hlr]. exists lr. subst s2.
    destruct save_unmonitored; cbn; exact Hlr. }
  split; [subst s2; destruct save_unmonitored; reflexivity|].
  split; [exact (Hcls Hc2)|].
  split; [subst s2; destruct save_unmonitored; reflexivity|].
  split; subst s2; destruct save_unmonitored; reflexivity.
Qed.

(** The epoch loop of [train]: every epoch of the list is run. *)
Lemma train_loop (x val : Batches) (c : Keras.Compiled) (path : string)
      (eps : list nat) :
  Keras.metrics c = [Keras.Accuracy] ->
  forall (c1 c2 : Keras.CbState) (s : Keras.FitState W),
    class_compiled (Keras.fit_model s) ->
    Keras.stop_training s = false ->
    let r := fit_loop x val c eps (train_cbs path c1 c2, s) in
    Keras.stop_training r.2 = false
    /\ class_compiled (Keras.fit_model r.2)
    /\ Keras.epoch (Keras.fit_history r.2)
       = Keras.epoch (Keras.fit_history s) ++ eps
    /\ (save_unmonitored = false -> Keras.fit_files r.2 = Keras.fit_files s)
    /\ (save_unmonitored = true -> eps <> [] ->
        exists saved, Keras.fit_files r.2 !! path = Some saved
                      /\ Keras.weights saved = Keras.weights (Keras.fit_model r.2)).
Proof.
  intros Hm. induction eps as [|ep rest IH]; intros c1 c2 s Hc Hstop.
  - cbn. rewrite app_nil_r. repeat split; try assumption. congruence.
  - cbn [fit_loop].
    pose proof (train_epoch x val c ep path c1 c2 s Hm Hc) as Hep.
    cbv zeta in Hep.
    destruct (fit_one_epoch x val c ep (train_cbs path c1 c2, s)) as [cbs1 s1].
    cbn [fst snd] in Hep.
    destruct Hep as ([c2' ->] & Hstop1 & Hc1 & Hepoch1 & Hw1 & Hfiles1).
    rewrite Hstop in Hstop1. cbn [snd]. rewrite Hstop1.
    specialize (IH c1 c2' s1 Hc1 Hstop1). cbv zeta in IH.
    destruct IH as (Hstop2 & Hc2 & Hepoch2 & Hskip & Hsave).
    split; [exact Hstop2|]. split; [exact Hc2|].
    split; [rewrite Hepoch2, Hepoch1, <- app_assoc; reflexivity|].
    split.
    + intros Hb. rewrite (Hskip Hb), Hfiles1, Hb. reflexivity.
    + intros Hb _. destruct rest as [|ep' rest'].
      * cbn [fit_loop snd]. rewrite Hfiles1, Hb.
        eexists. split; [apply lookup_insert_eq|]. symmetry. exact Hw1.
      * apply (Hsave Hb). discriminate.
Qed.

Lemma train_spec (self : Classifier) (m : Keras.Model W) (epochs : Z)
      (path : string) (w : World) :
  model self = Some m ->
  class_compiled m ->
  exists s,
    train self epochs path w
    = Return (set_history_attr (Some (Keras.fit_history s))
                (set_model_attr (Some (Keras.fit_model s)) self),
              with_files (Keras.fit_files s) w)
    /\ class_compiled (Keras.fit_model s)
    /\ Keras.epoch (Keras.fit_history s) = range epochs
    /\ (save_unmonitored = false -> Keras.fit_files s = files w)
    /\ (save_unmonitored = true -> 0 < epochs ->
        exists saved, Keras.fit_files s !! path = Some saved
                      /\ Keras.weights saved = Keras.weights (Keras.fit_model s)).
Proof.
  intros Hmodel Hc. destruct Hc as [lr Hlr].
  unfold train, Model_fit. rewrite Hmodel. cbn [attr]. rewrite bind_return, Hlr.
  rewrite bind_return.
  change (map (fun cb => (cb, Keras.cb_init)) (train_callbacks path))
    with (train_cbs path Keras.cb_init Keras.cb_init).
  set (s0 := Keras.mkFit m (files w) false (Keras.mkHistory [] ∅)).
  pose proof (train_loop (train_ds self) (val_ds self)
                (Keras.mkCompiled (Keras.Nadam lr)
                                  (Keras.CategoricalCrossentropy "val_loss")
                                  [Keras.Accuracy])
                path (range epochs)
                eq_refl Keras.cb_init Keras.cb_init s0
                (ex_intro _ lr Hlr) eq_refl) as Hloop.
  cbv zeta in Hloop.
  destruct Hloop as (_ & Hc' & Hepoch & Hskip & Hsave).
  eexists. split; [reflexivity|]. split; [exact Hc'|].
  split; [exact Hepoch|]. split; [exact Hskip|].
  intros Hb Hpos. apply (Hsave Hb). unfold range.
  destruct (Z.to_nat epochs) eqn:Hn; [lia | discriminate].
Qed.

(** *** ReduceLROnPlateau as [train] configures it *)

Lemma plateau_step_waits (factor : DecLit) (patience : Z) (l b : num)
      (c : Keras.CbState) (s : Keras.FitState W) :
  Keras.best c = Some b ->
  Keras.cooldown_counter c = 0 ->
  num_ltb l (num_sub b (lit Keras.rlrop_min_delta)) = false ->
  Keras.wait c + 1 < patience ->
  Keras.reduce_lr_on_epoch_end "loss" factor patience {["loss" := l]} c s
  = (Keras.mkCb (Some b) (Keras.wait c + 1) 0, s).
Proof.
  destruct c as [bst wt cd]. cbn [Keras.best Keras.cooldown_counter Keras.wait].
  intros -> -> Hflat Hwait.
  unfold Keras.reduce_lr_on_epoch_end. rewrite lookup_singleton_eq.
  cbn [Keras.cooldown_counter Keras.best Keras.wait].
  replace (0 <? 0) with false by reflexivity.
  change (Keras.auto_mode "loss") with Keras.Min.
  cbn [Keras.cooldown_counter Keras.best Keras.wait Keras.improves].
  rewrite Hflat. replace (0 <? 0) with false by reflexivity.
  replace (patience <=? wt + 1) with false
    by (symmetry; apply Z.leb_gt; exact Hwait).
  reflexivity.
Qed.


Lemma plateau_run_app (factor : DecLit) (patience : Z) (l1 l2 : list num) :
  forall (c : Keras.CbState) (s : Keras.FitState W),
    plateau_run factor patience (l1 ++ l2) c s
    = plateau_run factor patience l2
        (plateau_run factor patience l1 c s).1
        (plateau_run factor patience l1 c s).2.
Proof.
  induction l1 as [|l rest IH]; intros c s; [reflexivity|].
  cbn [app plateau_run].
  destruct (Keras.reduce_lr_on_epoch_end _ _ _ _ c s) as [c' s']. apply IH.
Qed.

Lemma plateau_run_waits (factor : DecLit) (patience : Z) (b : num)
      (losses : list num) :
  Forall (fun l => num_ltb l (num_sub b (lit Keras.rlrop_min_delta)) = false)
         losses ->
  forall (c : Keras.CbState) (s : Keras.FitState W),
    Keras.best c = Some b ->
    Keras.cooldown_counter c = 0 ->
    Keras.wait c + Z.of_nat (length losses) < patience ->
    plateau_run factor patience losses c s
    = (Keras.mkCb (Some b) (Keras.wait c + Z.of_nat (length losses)) 0, s).
Proof.
  induction 1 as [|l rest Hl Hrest IH]; intros c s Hbest Hcd Hwait.
  - cbn [plateau_run length]. destruct c as [bst wt cd]. cbn in *.
    subst. f_equal. f_equal. lia.
  - cbn [plateau_run length] in *.
    rewrite (plateau_step_waits factor patience l b c s Hbest Hcd Hl) by lia.
    rewrite IH by (cbn; try reflexivity; lia).
    cbn [Keras.wait]. f_equal. f_equal. lia.
Qed.

(** C3, as the code has it: on a model compiled by the class the logs of an
    epoch hold the validation accuracy under [val_accuracy] and nothing
    under [val_binary_accuracy], the key the checkpoint callback monitors.
    So [train] either leaves the files untouched (versions of the framework
    that skip the save) or leaves at [model_path] the variables of the last
    epoch run (versions that save anyhow): in neither case is the file
    chosen by validation accuracy. *)
Theorem train_checkpoint_ignores_validation (self : Classifier)
        (m : Keras.Model W) (c : Keras.Compiled) (value : string -> num)
        (epochs : Z) (model_path : string) (w : World) :
  model self = Some m ->
  class_compiled m ->
  Keras.compiled m = Some c ->
  (list_to_map (map (fun k => (k, value k)) (Keras.log_keys c)) : gmap string num)
    !! "val_binary_accuracy" = None
  /\ (list_to_map (map (fun k => (k, value k)) (Keras.log_keys c))
       : gmap string num)
       !! "val_accuracy" = Some (value "val_accuracy")
  /\ exists self' w' m',
      train self epochs model_path w = Return (self', w')
      /\ model self' = Some m'
      /\ (save_unmonitored = false -> files w' = files w)
      /\ (save_unmonitored = true -> 0 < epochs ->
          exists saved, files w' !! model_path = Some saved
                        /\ Keras.weights saved = Keras.weights m').
Proof.
  intros Hmodel Hclass Hc.
  assert (Hmetrics : Keras.metrics c = [Keras.Accuracy]).
  { destruct Hclass as [lr Hlr]. rewrite Hlr in Hc. inversion Hc. reflexivity. }
  destruct (class_logs c value Hmetrics) as (Hmon & _ & Hval).
  split; [exact Hmon|]. split; [exact Hval|].
  destruct (train_spec self m epochs model_path w Hmodel Hclass)
    as (s & Htrain & _ & _ & Hskip & Hsave).
  eexists _, _, _. split; [exact Htrain|]. split; [reflexivity|].
  split; [exact Hskip | exact Hsave].
Qed.


End Properties.

(** ** The methods run on the small instance *)

Example width_is_100 :
  Py.int (Py.float_mul (Py.float_of_int 75) (Py.truediv 320 240)) = Py.Return 100.
Proof. vm_compute. reflexivity. Qed.

Example aspect_ratio_rounds_up :
  Py.truediv 320 240 = S754_finite false 6004799503160661 (-52)
  /\ Py.float_mul (Py.float_of_int 75) (Py.truediv 320 240)
     = S754_finite false 7036874417766400 (-46).
Proof. split; vm_compute; reflexivity. Qed.

Lemma toy_init (b : bool) :
  @__init__ (Toy.framework b) "train" "val" "test" 12 (Toy.world b)
  = Py.Return (Toy.loaded b, Toy.started b).
Proof.
  unfold __init__.
  replace (Py.int (Py.float_mul (Py.float_of_int 75) (Py.truediv 320 240)))
    with (@Py.Return Z 100) by (vm_compute; reflexivity).
  rewrite bind_return.
  change (@_setup_gpu (Toy.framework b) (Toy.world b))
    with (@Py.Return (unit * @World (Toy.framework b)) (tt, Toy.started b)).
  rewrite bind_return. cbn [snd].
  rewrite !(@prepare_dataset_spec (Toy.framework b) _ _ _ _ Toy.two_classes)
    by (reflexivity || discriminate || (unfold default_batch_size; lia)
        || (cbn; lia)).
  rewrite !bind_return. reflexivity.
Qed.

Lemma toy_build (b : bool) :
  @build_model (Toy.framework b) (Toy.loaded b) = Py.Return (Toy.built b).
Proof. rewrite build_model_cases. reflexivity. Qed.

Local Abbreviation fw := (Toy.framework false).

Example toy_fine_tune_raises :
  @fine_tune fw (Toy.built false) default_start_layer
  = Py.Raise Py.AttributeError.
Proof. reflexivity. Qed.

(** The slice of [fine_tune] on the layers of a frozen backbone: a start of
    1 leaves the first layer frozen, and a negative start counts from the
    end. *)
Example toy_unfreeze_from :
  map Keras.trainable
      (@unfreeze_from 1 (map (Keras.set_trainable false) Toy.backbone))
  = [false; true; true]
  /\ map Keras.trainable
         (@unfreeze_from (-1) (map (Keras.set_trainable false) Toy.backbone))
     = [false; false; true].
Proof. split; reflexivity. Qed.

(** Two epochs on the small instance, the first with the best validation
    accuracy: a framework that skips the save leaves no file, one that saves
    anyhow leaves the variables of the second epoch. *)
Example toy_checkpoint_is_not_the_best_epoch :
  Toy.outcome false 2 "best.keras"
  = Some (None, Some 2%nat, Some (1 # 1000), Some [9 # 10; 1 # 10])
  /\ Toy.outcome true 2 "best.keras"
     = Some (Some 2%nat, Some 2%nat, Some (1 # 1000), Some [9 # 10; 1 # 10]).
Proof. split; vm_compute; reflexivity. Qed.

(** The loss of the small instance improves in the first epoch only: ten
    epochs leave the learning rate at 0.001, the eleventh makes it 0.0001. *)
Example toy_plateau_after_ten_stalled_epochs :
  (Toy.outcome false 10 "best.keras" ≫= fun o => o.1.2) = Some (1 # 1000)
  /\ (Toy.outcome false 11 "best.keras" ≫= fun o => o.1.2) = Some (1 # 10000).
Proof. split; vm_compute; reflexivity. Qed.

(** C1, the claim as stated fails: a directory with two class
    subdirectories loads under the default class count of twelve. *)
Lemma class_count_mismatch_loads :
  length Toy.two_classes = 2%nat
  /\ @disk fw (Toy.world false) !! "train" = Some Toy.two_classes
  /\ num_classes (Toy.config 12) = 12
  /\ Py.raises (@_prepare_dataset fw (Toy.config 12) "train" 32 (Toy.world false))
     = false.
Proof.
  split; [reflexivity|]. split; [reflexivity|]. split; [reflexivity|].
  rewrite (@prepare_dataset_spec fw (Toy.config 12) "train" 32 (Toy.world false)
             Toy.two_classes);
    [reflexivity | reflexivity | discriminate | lia | cbn; lia].
Qed.

Lemma prepare_dataset_any_class_count_witness :
  @_prepare_dataset fw (Toy.config 2) "train" 32 (Toy.world false)
  = Py.Return (@prepared fw (Toy.config 2) Toy.two_classes 32, Toy.world false)
  /\ Py.raises (@_prepare_dataset fw (Toy.config 2) "train" 32 (Toy.world false))
     = false.
Proof.
  apply (@prepare_dataset_any_class_count fw (Toy.config 2) "train" 32
           (Toy.world false) Toy.two_classes);
    [reflexivity | discriminate | lia | cbn; lia].
Defined.

Lemma fine_tune_after_build_witness :
  @build_model fw (Toy.loaded false) = Py.Return (Toy.built false)
  /\ exists m,
      @model fw (Toy.built false) = Some m
      /\ Keras.layers m !! 6%nat
         = Some (Keras.Functional "efficientnetv2-b3" false
                   (map (Keras.set_trainable false) Toy.backbone))
      /\ Forall (fun l => Keras.trainable l = false)
                (map (Keras.set_trainable false) Toy.backbone)
      /\ Keras.layers m !! 2%nat
         = Some (Keras.Leaf
                   (Keras.RandomBrightness (Dec (-5) (-1)) (Dec 5 (-1))) true)
      /\ @fine_tune fw (Toy.built false) default_start_layer
         = Py.Raise Py.AttributeError.
Proof.
  split; [exact (toy_build false)|].
  exact (@fine_tune_after_build fw (Toy.loaded false) (Toy.built false)
           default_start_layer
           (toy_build false)).
Defined.

Lemma plot_without_history_witness :
  @history fw (Toy.loaded false) = None
  /\ @plot_training_history fw (Toy.loaded false) (Toy.started false)
     = Py.Return
         (Toy.loaded false,
          @mkWorld fw (@disk fw (Toy.started false)) (@files fw (Toy.started false))
                   (@gpus fw (Toy.started false))
                   (@console fw (Toy.started false)
                    ++ [@Print fw no_history_message])).
Proof.
  split; [reflexivity|].
  exact (@plot_without_history fw (Toy.loaded false) (Toy.started false) eq_refl).
Defined.

Lemma evaluate_by_name_witness :
  @evaluate fw (Toy.built false) "train" = Py.Return [1 # 1; 1 # 2]
  /\ @evaluate fw (Toy.built false) "val" = Py.Return [1 # 1; 1 # 2]
  /\ @evaluate fw (Toy.built false) "test" = Py.Return [1 # 1; 1 # 2]
  /\ @eval_dataset fw (Toy.built false) "validation" = None
  /\ @evaluate fw (Toy.built false) "validation" = Py.Raise Py.ValueError.
Proof.
  exact (@evaluate_by_name fw (Toy.built false)
           (@built_model fw (Toy.loaded false))
           (Keras.mkCompiled (Keras.Nadam (lit (Dec 1 (-3))))
                             (Keras.CategoricalCrossentropy "val_loss")
                             [Keras.Accuracy])
           "validation" eq_refl eq_refl
           ltac:(discriminate) ltac:(discriminate) ltac:(discriminate)).
Defined.

Lemma build_model_input_shape_witness :
  @__init__ fw "train" "val" "test" 12 (Toy.world false)
  = Py.Return (Toy.loaded false, Toy.started false)
  /\ height (@config fw (Toy.loaded false)) = 75
  /\ width (@config fw (Toy.loaded false)) = 100
  /\ exists m,
      @build_model fw (Toy.loaded false)
      = Py.Return (@set_model_attr fw (Some m) (Toy.loaded false))
      /\ Keras.input_shape m = Some [None; Some 75; Some 100; Some 3].
Proof.
  split; [exact (toy_init false)|].
  destruct (@build_model_input_shape fw "train" "val" "test" 12
              (Toy.world false) (Toy.started false) (Toy.loaded false)
              (toy_init false) ltac:(lia))
    as (Hh & Hw & _ & m & Hbuild & _ & Hshape).
  split; [exact Hh|]. split; [exact Hw|].
  exists m. split; [exact Hbuild | exact Hshape].
Defined.

Lemma methods_before_build_witness :
  @__init__ fw "train" "val" "test" 12 (Toy.world false)
  = Py.Return (Toy.loaded false, Toy.started false)
  /\ @model fw (Toy.loaded false) = None
  /\ @train fw (Toy.loaded false) default_epochs default_model_path
            (Toy.started false)
     = Py.Raise Py.AttributeError
  /\ @evaluate fw (Toy.loaded false) default_dataset
     = Py.Raise Py.AttributeError
  /\ @fine_tune fw (Toy.loaded false) default_start_layer
     = Py.Raise Py.AttributeError
  /\ @save_model fw (Toy.loaded false) default_model_path (Toy.started false)
     = Py.Raise Py.AttributeError
  /\ @plot_training_history fw (Toy.loaded false) (Toy.started false)
     = Py.Return (Toy.loaded false,
                  @emit fw (@Print fw no_history_message) (Toy.started false)).
Proof.
  split; [exact (toy_init false)|].
  destruct (@methods_before_build fw "train" "val" "test" 12
              (Toy.world false) (Toy.started false) (Toy.loaded false)
              (toy_init false))
    as (Hm & Htrain & Heval & Hft & Hsave & Hplot).
  split; [exact Hm|]. split; [apply Htrain|]. split; [apply Heval|].
  split; [apply Hft|]. split; [apply Hsave | apply Hplot].
Defined.

Lemma grey_to_rgb_batch_witness :
  TF.shape Toy.grey_batch = [1; 1; 2; 1]%nat
  /\ @_grey_to_rgb fw Toy.grey_batch
     = Py.Return (TF.mkTensor [1; 1; 2; 3]%nat
                    [3 # 10; 3 # 10; 3 # 10; 7 # 10; 7 # 10; 7 # 10]).
Proof.
  split; [reflexivity|].
  exact (proj1 (@grey_to_rgb_batch fw Toy.grey_batch 1 1 2 1 eq_refl)).
Defined.

Lemma train_checkpoint_ignores_validation_witness :
  @model fw (Toy.built false) = Some (@built_model fw (Toy.loaded false))
  /\ (list_to_map
        (map (fun k => (k, Toy.epoch_value 0 k))
             ["loss"; "accuracy"; "val_loss"; "val_accuracy"]) : gmap string Q)
       !! "val_binary_accuracy" = None
  /\ exists self' w' m',
      @train fw (Toy.built false) 2 "best.keras" (Toy.started false)
      = Py.Return (self', w')
      /\ @model fw self' = Some m'
      /\ @files fw w' = @files fw (Toy.started false).
Proof.
  split; [reflexivity|].
  destruct (@train_checkpoint_ignores_validation fw (Toy.built false)
              (@built_model fw (Toy.loaded false))
              (Keras.mkCompiled (Keras.Nadam (lit (Dec 1 (-3))))
                                (Keras.CategoricalCrossentropy "val_loss")
                                [Keras.Accuracy])
              (Toy.epoch_value 0) 2 "best.keras" (Toy.started false)
              eq_refl (ex_intro _ (lit (Dec 1 (-3))) eq_refl) eq_refl)
    as (Hmon & _ & self' & w' & m' & Htrain & Hm' & Hskip & _).
  split; [exact Hmon|].
  exists self', w', m'. split; [exact Htrain|]. split; [exact Hm'|].
  exact (Hskip eq_refl).
Defined.


(** * Further properties of the methods *)

(** ** Lists, batches and label rows *)

Lemma ds_map_inv {X Y} (f : X -> Py.result Y) (g : X -> Y)
      (ds : Data.Dataset X) (ys : Data.Dataset Y) :
  (forall x y, In x ds -> f x = Py.Return y -> y = g x) ->
  Data.ds_map f ds = Py.Return ys ->
  ys = map g ds.
Proof.
  revert ys. induction ds as [|x rest IH]; intros ys Hf.
  - cbn. intros Heq. inversion Heq. reflexivity.
  - cbn [Data.ds_map].
    destruct (f x) as [e|y] eqn:Hx; [discriminate|]. rewrite bind_return.
    destruct (Data.ds_map f rest) as [e|ys'] eqn:Hrest; [discriminate|].
    rewrite bind_return. intros Heq. inversion Heq; subst. cbn [map]. f_equal.
    + apply Hf; [left; reflexivity | exact Hx].
    + apply IH; [|reflexivity].
      intros x' y' Hin. apply Hf. right. exact Hin.
Qed.

Lemma ds_map_raises {X Y} (f : X -> Py.result Y) (ds : Data.Dataset X) :
  ds <> [] ->
  (forall x, In x ds -> Py.raises (f x) = true) ->
  Py.raises (Data.ds_map f ds) = true.
Proof.
  destruct ds as [|x rest]; [congruence|]. intros _ Hf.
  cbn [Data.ds_map]. specialize (Hf x (or_introl eq_refl)).
  destruct (f x); [reflexivity | discriminate].
Qed.

Lemma batch_fuel_concat {A} (n : nat) :
  (0 < n)%nat ->
  forall (fuel : nat) (l : list A),
    (length l <= fuel)%nat -> concat (Data.batch_fuel fuel n l) = l.
Proof.
  intros Hn. induction fuel as [|fuel IH]; intros l Hl.
  - destruct l; [reflexivity | cbn in Hl; lia].
  - destruct l as [|x l]; [reflexivity|].
    cbn [Data.batch_fuel concat].
    rewrite IH by (rewrite length_drop; cbn [length] in *; lia).
    apply take_drop.
Qed.

Lemma batch_fuel_sizes {A} (n : nat) :
  (0 < n)%nat ->
  forall (fuel : nat) (l : list A),
    Forall (fun b => (0 < length b <= n)%nat) (Data.batch_fuel fuel n l).
Proof.
  intros Hn. induction fuel as [|fuel IH]; intros l; [constructor|].
  destruct l as [|x l]; [constructor|].
  cbn [Data.batch_fuel]. constructor; [|apply IH].
  cbv beta. rewrite length_take. cbn [length]. lia.
Qed.

Lemma batch_nonempty {A} (n : nat) (l : list A) :
  l <> [] -> Data.batch n l <> [].
Proof. destruct l; [congruence|]. intros _. discriminate. Qed.

Lemma one_hot_row_length {A} (on off : A) (depth : nat) (label : Z) :
  length (TF.one_hot_row on off depth label) = depth.
Proof. unfold TF.one_hot_row. rewrite length_map. apply length_seq. Qed.

Lemma one_hot_rows_length {A} (on off : A) (depth : nat) (labels : list Z) :
  length (flat_map (TF.one_hot_row on off depth) labels)
  = (length labels * depth)%nat.
Proof.
  induction labels as [|l rest IH]; [reflexivity|].
  cbn [flat_map length]. rewrite length_app, one_hot_row_length, IH. lia.
Qed.

Lemma index_nonneg_lookup {A} (xs : list A) (i : Z) (x : A) :
  0 <= i -> xs !! Z.to_nat i = Some x -> Py.index xs i = Py.Return x.
Proof.
  intros Hi Hx. pose proof (lookup_lt_Some _ _ _ Hx) as Hlt.
  unfold Py.index. cbv zeta.
  replace (i <? 0) with false by (symmetry; apply Z.ltb_ge; exact Hi).
  replace (i <? 0) with false by (symmetry; apply Z.ltb_ge; exact Hi).
  replace (Z.of_nat (length xs) <=? i) with false
    by (symmetry; apply Z.leb_gt; lia).
  cbn [orb]. rewrite Hx. reflexivity.
Qed.

Lemma index_last_inv {A} (xs : list A) (c : A) :
  Py.index xs (-1) = Py.Return c -> exists sh, xs = sh ++ [c].
Proof.
  destruct xs as [|x xs'] using rev_ind; [discriminate|].
  rewrite index_last. intros Heq. inversion Heq. eexists. reflexivity.
Qed.

Section More.
Context `{Framework}.

Import Py.

(** *** _prepare_dataset *)


Lemma prepare_dataset_inv (self : Config) (directory : string)
      (batch_size : Z) (w w' : World) (ds : Batches) :
  _prepare_dataset self directory batch_size w = Return (ds, w') ->
  w' = w
  /\ exists d, disk w !! directory = Some d
               /\ Data.index_directory d <> []
               /\ 0 < batch_size
               /\ ds = prepared self d batch_size.
Proof.
  unfold _prepare_dataset, image_dataset_from_directory.
  destruct (disk w !! directory) as [d|] eqn:Hdir; [|discriminate].
  destruct (Z.leb_spec batch_size 0) as [Hbs|Hbs]; [discriminate|].
  destruct (Data.index_directory d) as [|s samples] eqn:Hs; [discriminate|].
  rewrite bind_return.
  set (ds0 := map (load_batch (image_size self)) _).
  destruct (Data.ds_map _ ds0) as [e|ds1] eqn:H1; [discriminate|].
  rewrite bind_return.
  destruct (Data.ds_map _ ds1) as [e|ds2] eqn:H2; [discriminate|].
  rewrite bind_return. intros Heq. inversion Heq; subst ds w'. clear Heq.
  apply (ds_map_inv _ (encoded (num_classes self))) in H1.
  2:{ intros xy y _. unfold TF.one_hot.
      destruct (num_classes self <? 0); [discriminate|].
      rewrite bind_return. intros Heq. inversion Heq. reflexivity. }
  apply (ds_map_inv _ (fun xy => xy)) in H2.
  2:{ intros xy y Hin. subst ds1 ds0.
      apply in_map_iff in Hin as (b & <- & Hb).
      apply in_map_iff in Hb as (fs & <- & _).
      cbn [encoded fst]. rewrite loaded_batch_is_rgb, bind_return.
      intros Heq. inversion Heq. reflexivity. }
  rewrite map_id in H2. subst ds2 ds1 ds0.
  split; [reflexivity|]. exists d.
  split; [reflexivity|]. split; [rewrite Hs; discriminate|].
  split; [exact Hbs|]. unfold prepared. rewrite Hs. reflexivity.
Qed.



Lemma prepare_dataset_raises_iff (self : Config) (directory : string)
      (batch_size : Z) (w : World) :
  raises (_prepare_dataset self directory batch_size w) = true
  <-> match disk w !! directory with
      | None => True
      | Some d =>
          batch_size <= 0
          \/ Data.index_directory d = []
          \/ (num_classes self < 0 /\ shuffle (Data.index_directory d) <> [])
      end.
Proof.
  destruct (disk w !! directory) as [d|] eqn:Hdir.
  2:{ unfold _prepare_dataset, image_dataset_from_directory. rewrite Hdir.
      split; [intros _; exact I | reflexivity]. }
  destruct (Z.leb_spec batch_size 0) as [Hbs|Hbs].
  { unfold _prepare_dataset, image_dataset_from_directory. rewrite Hdir.
    replace (batch_size <=? 0) with true by (symmetry; apply Z.leb_le; exact Hbs).
    split; [intros _; left; exact Hbs | reflexivity]. }
  destruct (Data.index_directory d) as [|s samples] eqn:Hs.
  { rewrite (prepare_dataset_no_images self directory batch_size w d Hdir Hs).
    split; [intros _; right; left; reflexivity | reflexivity]. }
  destruct (Z.ltb_spec (num_classes self) 0) as [Hn|Hn].
  - unfold _prepare_dataset, image_dataset_from_directory. rewrite Hdir, Hs.
    replace (batch_size <=? 0) with false by (symmetry; apply Z.leb_gt; exact Hbs).
    rewrite bind_return.
    destruct (shuffle (s :: samples)) as [|s' rest] eqn:Hsh.
    + cbn. split; [discriminate|].
      intros [Hc|[Hc|[_ Hc]]]; [lia | discriminate | congruence].
    + split; [intros _; right; right; split; [exact Hn | discriminate]|].
      intros _.
      set (f := fun xy : TF.Tensor num * list Z => _).
      set (ds0 := map (load_batch (image_size self)) _).
      assert (Hr : raises (Data.ds_map f ds0) = true).
      { apply ds_map_raises.
        - subst ds0. intros Hnil. apply map_eq_nil in Hnil.
          revert Hnil. apply batch_nonempty. discriminate.
        - intros xy _. subst f. cbv beta. unfold TF.one_hot.
          replace (num_classes self <? 0) with true
            by (symmetry; apply Z.ltb_lt; exact Hn).
          reflexivity. }
      destruct (Data.ds_map f ds0); [reflexivity | discriminate].
  - rewrite (prepare_dataset_spec self directory batch_size w d Hdir)
      by (rewrite ?Hs; (discriminate || assumption)).
    cbn [raises Return]. split; [discriminate|].
    intros [Hc|[Hc|[Hc _]]]; [lia | discriminate | lia].
Qed.

(** X2: [_prepare_dataset] raises exactly when the directory does not
    exist, or the batch size is not positive, or the directory holds no
    image, or the class count is negative while the loader yields a file. *)
Theorem prepare_dataset_raises (self : Config) (directory : string)
        (batch_size : Z) (w : World) :
  raises (_prepare_dataset self directory batch_size w) = true
  <-> match disk w !! directory with
      | None => True
      | Some d =>
          batch_size <= 0
          \/ Data.index_directory d = []
          \/ (num_classes self < 0 /\ shuffle (Data.index_directory d) <> [])
      end.
Proof.
  split.
  - intros Hraises. apply prepare_dataset_raises_iff. exact Hraises.
  - intros Hcause. apply prepare_dataset_raises_iff. exact Hcause.
Qed.

Lemma sum_list_lengths {A} (ls : list (list A)) :
  sum_list (map length ls) = length (concat ls).
Proof.
  induction ls as [|l rest IH]; [reflexivity|].
  cbn [map concat]. rewrite length_app, <- IH. reflexivity.
Qed.

Lemma prepared_forall (self : Config) (d : Data.Directory) (batch_size : Z)
      (P : TF.Tensor num * TF.Tensor num -> Prop) :
  (forall files, In files (Data.batch (Z.to_nat batch_size)
                                      (shuffle (Data.index_directory d))) ->
                 P (encoded (num_classes self)
                            (load_batch (image_size self) files))) ->
  Forall P (prepared self d batch_size).
Proof.
  intros HP. apply List.Forall_forall. intros xy Hin. unfold prepared in Hin.
  apply in_map_iff in Hin as (b & <- & Hb).
  apply in_map_iff in Hb as (fs & <- & Hfs). apply HP. exact Hfs.
Qed.

(** X3: in the dataset [_prepare_dataset] returns every batch holds
    between one and [batch_size] samples; its images have shape
    (k, height, width, 3) and its labels form a well-formed tensor of shape
    (k, num_classes); and the batch sizes add up to the number of files the
    loader yields. *)
Theorem prepare_dataset_batches (self : Config) (directory : string)
        (batch_size : Z) (w w' : World) (ds : Batches) :
  _prepare_dataset self directory batch_size w = Return (ds, w') ->
  exists d,
    disk w !! directory = Some d
    /\ Forall (fun xy =>
                 exists k : nat,
                   (0 < k)%nat /\ Z.of_nat k <= batch_size
                   /\ TF.shape xy.1 = [k; Z.to_nat (image_size self).1;
                                       Z.to_nat (image_size self).2; 3%nat]
                   /\ TF.shape xy.2 = [k; Z.to_nat (num_classes self)]
                   /\ TF.well_formed xy.2)
              ds
    /\ sum_list (map (fun xy => hd 0%nat (TF.shape xy.1)) ds)
       = length (shuffle (Data.index_directory d)).
Proof.
  intros Hret.
  apply prepare_dataset_inv in Hret as (_ & d & Hdir & _ & Hbs & ->).
  exists d. split; [exact Hdir|]. split.
  - apply prepared_forall. intros fs Hfs.
    pose proof (batch_fuel_sizes (Z.to_nat batch_size) ltac:(lia)
                  (length (shuffle (Data.index_directory d)))
                  (shuffle (Data.index_directory d))) as Hsizes.
    rewrite List.Forall_forall in Hsizes. specialize (Hsizes fs Hfs).
    exists (length fs). split; [lia|]. split; [lia|].
    split; [reflexivity|].
    cbn [encoded load_batch fst snd TF.shape]. rewrite length_map.
    split; [reflexivity|].
    unfold TF.well_formed. cbn [TF.data TF.shape TF.numel foldr].
    rewrite one_hot_rows_length, length_map. lia.
  - unfold prepared. rewrite !map_map. cbn [encoded load_batch fst TF.shape hd].
    rewrite sum_list_lengths.
    unfold Data.batch. rewrite batch_fuel_concat by lia. reflexivity.
Qed.



(** *** _grey_to_rgb *)

(** X5: [_grey_to_rgb] is idempotent: a tensor it returns has the rank of
    its argument and a last dimension other than 1, and the method returns
    it unchanged when applied again. *)
Theorem grey_to_rgb_idempotent (image rgb : TF.Tensor num) :
  _grey_to_rgb image = Return rgb ->
  _grey_to_rgb rgb = Return rgb
  /\ length (TF.shape rgb) = length (TF.shape image)
  /\ last (TF.shape rgb) <> Some 1%nat.
Proof.
  intros Hret.
  destruct (index (TF.shape image) (-1)) as [e|c] eqn:Hidx.
  { unfold _grey_to_rgb in Hret. rewrite Hidx in Hret. discriminate. }
  apply index_last_inv in Hidx as [sh Hsh].
  rewrite (grey_to_rgb_last_dim image sh c Hsh) in Hret.
  destruct (Nat.eqb_spec c 1) as [Hc|Hc].
  - rewrite Hc in Hsh.
    unfold TF.grayscale_to_rgb in Hret. rewrite Hsh in Hret.
    destruct (length (sh ++ [1%nat]) <? 2)%nat; [discriminate|].
    rewrite last_snoc, removelast_last in Hret.
    inversion Hret; subst rgb. cbn [TF.shape].
    split; [|split].
    + rewrite (grey_to_rgb_last_dim _ sh 3%nat) by reflexivity. reflexivity.
    + rewrite Hsh, !length_app. reflexivity.
    + rewrite last_snoc. discriminate.
  - inversion Hret; subst rgb. split; [|split].
    + rewrite (grey_to_rgb_last_dim image sh c Hsh).
      destruct (Nat.eqb_spec c 1); [contradiction | reflexivity].
    + reflexivity.
    + rewrite Hsh, last_snoc. congruence.
Qed.


(** *** __init__ *)

Lemma setup_gpu_spec (w : World) :
  _setup_gpu w = Return (tt, emit (gpu_line w) w).
Proof. unfold _setup_gpu, gpu_line. destruct (gpus w); reflexivity. Qed.

Lemma init_spec (train_dir val_dir test_dir : string) (n : Z) (w : World)
      (d1 d2 d3 : Data.Directory) :
  disk w !! train_dir = Some d1 ->
  disk w !! val_dir = Some d2 ->
  disk w !! test_dir = Some d3 ->
  Data.index_directory d1 <> [] ->
  Data.index_directory d2 <> [] ->
  Data.index_directory d3 <> [] ->
  0 <= n ->
  let cfg := mkConfig n 75 100 (75, 100) in
  __init__ train_dir val_dir test_dir n w
  = Return (mkClassifier cfg (prepared cfg d1 default_batch_size)
                         (prepared cfg d2 default_batch_size)
                         (prepared cfg d3 default_batch_size) None None,
            emit (gpu_line w) w).
Proof.
  intros H1 H2 H3 F1 F2 F3 Hn cfg. unfold __init__.
  replace (int (float_mul (float_of_int 75) (truediv 320 240)))
    with (@Return Z 100) by (vm_compute; reflexivity).
  rewrite bind_return, setup_gpu_spec, bind_return. cbn [snd].
  rewrite (prepare_dataset_spec _ train_dir _ _ d1)
    by (assumption || reflexivity || exact Hn).
  rewrite bind_return. cbn [fst snd].
  rewrite (prepare_dataset_spec _ val_dir _ _ d2)
    by (assumption || reflexivity || exact Hn).
  rewrite bind_return. cbn [fst snd].
  rewrite (prepare_dataset_spec _ test_dir _ _ d3)
    by (assumption || reflexivity || exact Hn).
  rewrite bind_return. reflexivity.
Qed.

Lemma init_inv (train_dir val_dir test_dir : string) (n : Z) (w w' : World)
      (self : Classifier) :
  __init__ train_dir val_dir test_dir n w = Return (self, w') ->
  w' = emit (gpu_line w) w
  /\ exists d1 d2 d3,
      disk w !! train_dir = Some d1
      /\ disk w !! val_dir = Some d2
      /\ disk w !! test_dir = Some d3
      /\ Data.index_directory d1 <> []
      /\ Data.index_directory d2 <> []
      /\ Data.index_directory d3 <> []
      /\ self = mkClassifier (mkConfig n 75 100 (75, 100))
                  (prepared (mkConfig n 75 100 (75, 100)) d1 default_batch_size)
                  (prepared (mkConfig n 75 100 (75, 100)) d2 default_batch_size)
                  (prepared (mkConfig n 75 100 (75, 100)) d3 default_batch_size)
                  None None.
Proof.
  unfold __init__.
  replace (int (float_mul (float_of_int 75) (truediv 320 240)))
    with (@Return Z 100) by (vm_compute; reflexivity).
  rewrite bind_return, setup_gpu_spec, bind_return. cbn [snd].
  destruct (_prepare_dataset _ train_dir _ _) as [e|[ds1 w1]] eqn:E1;
    [discriminate|].
  apply prepare_dataset_inv in E1 as (-> & d1 & H1 & F1 & _ & ->).
  rewrite bind_return. cbn [fst snd].
  destruct (_prepare_dataset _ val_dir _ _) as [e|[ds2 w2]] eqn:E2;
    [discriminate|].
  apply prepare_dataset_inv in E2 as (-> & d2 & H2 & F2 & _ & ->).
  rewrite bind_return. cbn [fst snd].
  destruct (_prepare_dataset _ test_dir _ _) as [e|[ds3 w3]] eqn:E3;
    [discriminate|].
  apply prepare_dataset_inv in E3 as (-> & d3 & H3 & F3 & _ & ->).
  rewrite bind_return. cbn [fst snd]. intros Heq. inversion Heq; subst.
  split; [reflexivity|]. exists d1, d2, d3. repeat (split; [assumption|]).
  reflexivity.
Qed.



(** X8: when one of the three directories does not exist the constructor
    raises, so no classifier object is ever left with a dataset missing. *)
Theorem init_missing_directory (train_dir val_dir test_dir : string) (n : Z)
        (w : World) :
  disk w !! train_dir = None \/ disk w !! val_dir = None
  \/ disk w !! test_dir = None ->
  raises (__init__ train_dir val_dir test_dir n w) = true.
Proof.
  intros Hmiss.
  destruct (__init__ train_dir val_dir test_dir n w) as [e|[self w']] eqn:Hinit;
    [reflexivity|].
  apply init_inv in Hinit as (_ & d1 & d2 & d3 & H1 & H2 & H3 & _).
  destruct Hmiss as [Hm|[Hm|Hm]]; congruence.
Qed.

(** *** build_model *)

(** X9: for a classifier made by the constructor and built by
    [build_model], the datasets fit the model: every batch of the three
    datasets has images of shape (k, 75, 100, 3), the model's input shape
    with the batch axis filled in, and labels of shape (k, num_classes),
    the width of the dense layer that ends the model. *)
Theorem datasets_fit_model (train_dir val_dir test_dir : string) (n : Z)
        (w0 w1 : World) (self self' : Classifier) :
  __init__ train_dir val_dir test_dir n w0 = Return (self, w1) ->
  build_model self = Return self' ->
  exists m,
    model self' = Some m
    /\ Keras.input_shape m = Some [None; Some 75; Some 100; Some 3]
    /\ last (Keras.layers m) = Some (Keras.Leaf (Keras.Dense n "sigmoid") true)
    /\ Forall (fun xy =>
                 exists k : nat,
                   TF.shape xy.1 = [k; 75; 100; 3]%nat
                   /\ TF.shape xy.2 = [k; Z.to_nat n])
              (train_ds self' ++ val_ds self' ++ test_ds self').
Proof.
  intros Hinit Hbuild.
  apply init_inv in Hinit as (_ & d1 & d2 & d3 & _ & _ & _ & _ & _ & _ & ->).
  apply build_model_inv in Hbuild. subst self'.
  eexists. split; [reflexivity|]. split; [reflexivity|].
  split; [reflexivity|].
  cbn [set_model_attr train_ds val_ds test_ds].
  rewrite !Forall_app. repeat split.
  all: apply prepared_forall; intros fs _; exists (length fs).
  all: cbn [encoded load_batch fst snd TF.shape image_size num_classes].
  all: rewrite length_map; split; reflexivity.
Qed.




(** *** train *)

Lemma set_lr_arch (lr : num) (m : Keras.Model W) :
  Keras.inputs (Keras.set_lr lr m) = Keras.inputs m
  /\ Keras.outputs (Keras.set_lr lr m) = Keras.outputs m.
Proof. unfold Keras.set_lr. destruct (Keras.compiled m); split; reflexivity. Qed.

Lemma reduce_lr_arch (mon : string) (factor : DecLit) (patience : Z)
      (logs : gmap string num) (c : Keras.CbState) (s : Keras.FitState W) :
  let r := Keras.reduce_lr_on_epoch_end mon factor patience logs c s in
  Keras.inputs (Keras.fit_model r.2) = Keras.inputs (Keras.fit_model s)
  /\ Keras.outputs (Keras.fit_model r.2) = Keras.outputs (Keras.fit_model s).
Proof.
  unfold Keras.reduce_lr_on_epoch_end.
  repeat case_match; cbn; try (split; reflexivity).
  all: apply set_lr_arch.
Qed.

Lemma record_class (ep : nat) (value : string -> num) (h : Keras.History)
      (k : string) :
  In k class_keys ->
  Keras.history (Keras.record ep (map (fun k => (k, value k)) class_keys) h) !! k
  = Some (default [] (Keras.history h !! k) ++ [value k]).
Proof.
  intros Hk. unfold Keras.record, class_keys in *.
  cbn [map foldl fst snd Keras.history].
  cbn [In] in Hk. destruct Hk as [<-|[<-|[<-|[<-|[]]]]].
  all: repeat (rewrite lookup_insert_eq || rewrite lookup_insert_ne by discriminate).
  all: reflexivity.
Qed.

Lemma record_class_history (ep : nat) (value : string -> num)
      (h : Keras.History) :
  class_history h ->
  class_history (Keras.record ep (map (fun k => (k, value k)) class_keys) h).
Proof.
  intros [Hempty Hfull]. split.
  - cbn [Keras.record Keras.epoch]. intros Hnil.
    apply app_eq_nil in Hnil as [_ Hnil]. discriminate.
  - intros _ k Hk. rewrite (record_class ep value h k Hk).
    eexists. split; [reflexivity|].
    cbn [Keras.record Keras.epoch]. rewrite !length_app. cbn [length].
    f_equal.
    destruct (Keras.epoch h) as [|e0 es] eqn:Hep.
    + rewrite (Hempty eq_refl), lookup_empty. reflexivity.
    + destruct (Hfull ltac:(discriminate) k Hk) as (l & -> & Hl). exact Hl.
Qed.

(** What one epoch of [train] leaves besides the facts of [train_epoch]:
    the graph of the model, every file but the checkpoint's, and the
    history with this epoch's values appended. *)
Lemma train_epoch_frame (x val : Batches) (c : Keras.Compiled) (ep : nat)
      (path : string) (c1 c2 : Keras.CbState) (s : Keras.FitState W) :
  Keras.metrics c = [Keras.Accuracy] ->
  let r := fit_one_epoch x val c ep (train_cbs path c1 c2, s) in
  Keras.inputs (Keras.fit_model r.2) = Keras.inputs (Keras.fit_model s)
  /\ Keras.outputs (Keras.fit_model r.2) = Keras.outputs (Keras.fit_model s)
  /\ (forall p, p <> path ->
                Keras.fit_files r.2 !! p = Keras.fit_files s !! p)
  /\ Keras.fit_history r.2
     = Keras.record ep
         (map (fun k => (k, (fit_epoch (Keras.fit_model s) x val).2 k))
              class_keys)
         (Keras.fit_history s).
Proof.
  intros Hm r. subst r.
  unfold fit_one_epoch, train_cbs. rewrite (class_log_keys c Hm).
  fold class_keys.
  destruct (fit_epoch (Keras.fit_model s) x val) as [w value] eqn:Hfit.
  cbn [fst snd Keras.run_callbacks Keras.on_epoch_end].
  set (logs := list_to_map _).
  set (s1 := Keras.set_model _ s).
  pose proof (reduce_lr_frame "loss" (Dec 1 (-1)) 10 logs c2) as Hframe.
  pose proof (reduce_lr_arch "loss" (Dec 1 (-1)) 10 logs c2) as Harch.
  destruct (Keras.checkpoint_on_epoch_end save_unmonitored path true
              "val_binary_accuracy" logs c1 s1) as [c1' s2] eqn:Hck.
  specialize (Hframe s2). specialize (Harch s2).
  destruct (Keras.reduce_lr_on_epoch_end "loss" _ 10 logs c2 s2) as [c2' s3].
  cbn [fst snd] in Hframe, Harch.
  destruct Hframe as (_ & Hfiles & Hhist & _ & _).
  destruct Harch as (Hin & Hout).
  cbn [fst snd Keras.fit_model Keras.fit_files Keras.fit_history].
  rewrite Hin, Hout, Hfiles, Hhist.
  assert (Hs2 : Keras.fit_model s2 = Keras.fit_model s1
                /\ Keras.fit_history s2 = Keras.fit_history s1
                /\ forall p, p <> path ->
                             Keras.fit_files s2 !! p = Keras.fit_files s1 !! p).
  { unfold Keras.checkpoint_on_epoch_end in Hck.
    repeat case_match; inversion Hck; subst; cbn; repeat split; try reflexivity.
    all: intros p Hp; unfold Keras.save; apply lookup_insert_ne; congruence. }
  destruct Hs2 as (-> & -> & Hother).
  subst s1. cbn [Keras.set_model Keras.fit_model Keras.fit_history
                 Keras.fit_files Keras.inputs Keras.outputs] in *.
  repeat split; try reflexivity. exact Hother.
Qed.

Lemma train_loop_frame (x val : Batches) (c : Keras.Compiled) (path : string)
      (eps : list nat) :
  Keras.metrics c = [Keras.Accuracy] ->
  forall (c1 c2 : Keras.CbState) (s : Keras.FitState W),
    class_compiled (Keras.fit_model s) ->
    Keras.stop_training s = false ->
    let r := fit_loop x val c eps (train_cbs path c1 c2, s) in
    Keras.inputs (Keras.fit_model r.2) = Keras.inputs (Keras.fit_model s)
    /\ Keras.outputs (Keras.fit_model r.2) = Keras.outputs (Keras.fit_model s)
    /\ (forall p, p <> path ->
                  Keras.fit_files r.2 !! p = Keras.fit_files s !! p)
    /\ (class_history (Keras.fit_history s) ->
        class_history (Keras.fit_history r.2)).
Proof.
  intros Hm. induction eps as [|ep rest IH]; intros c1 c2 s Hc Hstop.
  - cbn. split; [reflexivity|]. split; [reflexivity|].
    split; [intros; reflexivity|]. intros Hh. exact Hh.
  - cbn [fit_loop].
    pose proof (train_epoch x val c ep path c1 c2 s Hm Hc) as Hep.
    pose proof (train_epoch_frame x val c ep path c1 c2 s Hm) as Hfr.
    cbv zeta in Hep, Hfr.
    destruct (fit_one_epoch x val c ep (train_cbs path c1 c2, s)) as [cbs1 s1].
    cbn [fst snd] in Hep, Hfr.
    destruct Hep as ([c2' ->] & Hstop1 & Hc1 & _).
    destruct Hfr as (Hin1 & Hout1 & Hfiles1 & Hhist1).
    rewrite Hstop in Hstop1. cbn [snd]. rewrite Hstop1.
    specialize (IH c1 c2' s1 Hc1 Hstop1). cbv zeta in IH.
    destruct IH as (Hin2 & Hout2 & Hfiles2 & Hhist2).
    split; [congruence|]. split; [congruence|]. split.
    + intros p Hp. rewrite (Hfiles2 p Hp). apply Hfiles1. exact Hp.
    + intros Hh. apply Hhist2. rewrite Hhist1.
      apply record_class_history. exact Hh.
Qed.

Lemma train_unfold (self : Classifier) (m : Keras.Model W)
      (c : Keras.Compiled) (epochs : Z) (path : string) (w : World) :
  model self = Some m ->
  Keras.compiled m = Some c ->
  train self epochs path w
  = Return (set_history_attr
              (Some (Keras.fit_history
                       (train_run self m c epochs path (files w))))
              (set_model_attr
                 (Some (Keras.fit_model
                          (train_run self m c epochs path (files w))))
                 self),
            with_files (Keras.fit_files
                          (train_run self m c epochs path (files w))) w).
Proof.
  intros Hmodel Hc. unfold train, Model_fit. rewrite Hmodel. cbn [attr].
  rewrite bind_return, Hc. reflexivity.
Qed.

Lemma train_run_spec (self : Classifier) (m : Keras.Model W)
      (c : Keras.Compiled) (epochs : Z) (path : string)
      (fs : gmap string (Keras.Model W)) :
  Keras.compiled m = Some c ->
  class_compiled m ->
  let s := train_run self m c epochs path fs in
  Keras.inputs (Keras.fit_model s) = Keras.inputs m
  /\ Keras.outputs (Keras.fit_model s) = Keras.outputs m
  /\ class_compiled (Keras.fit_model s)
  /\ (forall p, p <> path -> Keras.fit_files s !! p = fs !! p)
  /\ class_history (Keras.fit_history s)
  /\ Keras.epoch (Keras.fit_history s) = range epochs.
Proof.
  intros Hc Hclass s. subst s. unfold train_run.
  assert (Hm : Keras.metrics c = [Keras.Accuracy]).
  { destruct Hclass as [lr Hlr]. rewrite Hlr in Hc. inversion Hc. reflexivity. }
  set (s0 := Keras.mkFit m fs false (Keras.mkHistory [] ∅)).
  pose proof (train_loop (train_ds self) (val_ds self) c path (range epochs)
                Hm Keras.cb_init Keras.cb_init s0 Hclass eq_refl) as Hloop.
  pose proof (train_loop_frame (train_ds self) (val_ds self) c path
                (range epochs) Hm Keras.cb_init Keras.cb_init s0 Hclass eq_refl)
    as Hframe.
  cbv zeta in Hloop, Hframe.
  destruct Hloop as (_ & Hc' & Hepoch & _).
  destruct Hframe as (Hin & Hout & Hfiles & Hhist).
  split; [exact Hin|]. split; [exact Hout|]. split; [exact Hc'|].
  split; [exact Hfiles|]. split; [|exact Hepoch].
  apply Hhist. split; [reflexivity|]. intros Hne. contradiction.
Qed.



Lemma plot_with_class_history (self : Classifier) (h : Keras.History)
      (w : World) :
  history self = Some h ->
  class_history h ->
  Keras.epoch h <> [] ->
  exists loss val_loss accuracy val_accuracy,
    plot_training_history self w
    = Return (self,
              emit (Show (history_figure loss val_loss accuracy val_accuracy)) w)
    /\ length loss = length (Keras.epoch h)
    /\ length val_loss = length (Keras.epoch h)
    /\ length accuracy = length (Keras.epoch h)
    /\ length val_accuracy = length (Keras.epoch h).
Proof.
  intros Hh [_ Hfull] Hne. specialize (Hfull Hne).
  destruct (Hfull "loss") as (l1 & E1 & L1); [cbn; tauto|].
  destruct (Hfull "val_loss") as (l2 & E2 & L2); [cbn; tauto|].
  destruct (Hfull "accuracy") as (l3 & E3 & L3); [cbn; tauto|].
  destruct (Hfull "val_accuracy") as (l4 & E4 & L4); [cbn; tauto|].
  exists l1, l2, l3, l4.
  unfold plot_training_history, getitem. rewrite Hh, E1, E2, E3, E4.
  repeat split; assumption.
Qed.

Lemma range_length (n : Z) : length (range n) = Z.to_nat n.
Proof. unfold range. apply length_seq. Qed.

Lemma range_nonempty (n : Z) : 0 < n -> range n <> [].
Proof.
  intros Hn Hnil. apply (f_equal length) in Hnil.
  rewrite range_length in Hnil. cbn in Hnil. lia.
Qed.

(** X12: after [train] has run at least one epoch on a model compiled by
    the class, [plot_training_history] never raises: the history holds the
    four curves it reads (loss, val_loss, accuracy, val_accuracy), each
    with one value per epoch, and the method shows one figure with them. *)
Theorem train_then_plot (self : Classifier) (m : Keras.Model W) (epochs : Z)
        (model_path : string) (w : World) :
  model self = Some m ->
  class_compiled m ->
  0 < epochs ->
  exists self' w' loss val_loss accuracy val_accuracy,
    train self epochs model_path w = Return (self', w')
    /\ plot_training_history self' w'
       = Return (self',
                 emit (Show (history_figure loss val_loss accuracy val_accuracy))
                      w')
    /\ length loss = Z.to_nat epochs
    /\ length val_loss = Z.to_nat epochs
    /\ length accuracy = Z.to_nat epochs
    /\ length val_accuracy = Z.to_nat epochs.
Proof.
  intros Hmodel Hclass Hpos. pose proof Hclass as [lr Hlr].
  destruct (train_run_spec self m _ epochs model_path (files w) Hlr Hclass)
    as (_ & _ & _ & _ & Hhist & Hepoch).
  pose proof (train_unfold self m _ epochs model_path w Hmodel Hlr) as Htrain.
  set (s := train_run self m _ epochs model_path (files w)) in *.
  destruct (plot_with_class_history
              (set_history_attr (Some (Keras.fit_history s))
                 (set_model_attr (Some (Keras.fit_model s)) self))
              (Keras.fit_history s)
              (with_files (Keras.fit_files s) w) eq_refl Hhist)
    as (l1 & l2 & l3 & l4 & Hplot & L1 & L2 & L3 & L4).
  { rewrite Hepoch. apply range_nonempty. exact Hpos. }
  rewrite Hepoch, range_length in L1, L2, L3, L4.
  eexists _, _, l1, l2, l3, l4.
  split; [exact Htrain|]. split; [exact Hplot|]. repeat split; assumption.
Qed.

(** X13: [train] with [epochs <= 0] runs no epoch: the model and the
    world are as before, but the stored history is no longer None, it is
    an empty history.  [plot_training_history] then passes its guard and
    raises KeyError on the first curve it reads. *)
Theorem train_without_epochs (self : Classifier) (m : Keras.Model W)
        (epochs : Z) (model_path : string) (w : World) :
  model self = Some m ->
  class_compiled m ->
  epochs <= 0 ->
  exists self',
    train self epochs model_path w = Return (self', w)
    /\ model self' = Some m
    /\ history self' = Some (Keras.mkHistory [] ∅)
    /\ plot_training_history self' w = Raise KeyError.
Proof.
  intros Hmodel Hclass Hle. pose proof Hclass as [lr Hlr].
  pose proof (train_unfold self m _ epochs model_path w Hmodel Hlr) as Htrain.
  unfold train_run in Htrain.
  replace (range epochs) with (@nil nat) in Htrain
    by (unfold range; replace (Z.to_nat epochs) with 0%nat by lia; reflexivity).
  cbn [fit_loop snd Keras.fit_history Keras.fit_model Keras.fit_files] in Htrain.
  replace (with_files (files w) w) with w in Htrain by (destruct w; reflexivity).
  eexists. split; [exact Htrain|]. repeat split.
Qed.

(** X14: [train] can be called again on the classifier it returns, and
    each call replaces the stored history: after a run of [e1] epochs and a
    run of [e2] epochs the history lists the epochs 0 .. e2 - 1 of the
    second run only, with [e2] values per curve, while the model keeps the
    layers it had. *)
Theorem train_twice_replaces_history (self : Classifier) (m : Keras.Model W)
        (e1 e2 : Z) (path1 path2 : string) (w : World) :
  model self = Some m ->
  class_compiled m ->
  exists self1 w1 self2 w2 m2 h2,
    train self e1 path1 w = Return (self1, w1)
    /\ train self1 e2 path2 w1 = Return (self2, w2)
    /\ model self2 = Some m2
    /\ Keras.layers m2 = Keras.layers m
    /\ history self2 = Some h2
    /\ Keras.epoch h2 = range e2
    /\ (0 < e2 ->
        forall k, In k class_keys ->
                  exists l, Keras.history h2 !! k = Some l
                            /\ length l = Z.to_nat e2).
Proof.
  intros Hmodel Hclass. pose proof Hclass as [lr Hlr].
  destruct (train_run_spec self m _ e1 path1 (files w) Hlr Hclass)
    as (_ & Hout1 & Hc1 & _).
  pose proof (train_unfold self m _ e1 path1 w Hmodel Hlr) as Htrain1.
  set (s1 := train_run self m _ e1 path1 (files w)) in *.
  set (self1 := set_history_attr (Some (Keras.fit_history s1))
                  (set_model_attr (Some (Keras.fit_model s1)) self)) in *.
  set (w1 := with_files (Keras.fit_files s1) w) in *.
  pose proof Hc1 as [lr1 Hlr1].
  destruct (train_run_spec self1 (Keras.fit_model s1) _ e2 path2 (files w1)
                           Hlr1 Hc1)
    as (_ & Hout2 & _ & _ & [_ Hhist2] & Hepoch2).
  pose proof (train_unfold self1 (Keras.fit_model s1) _ e2 path2 w1 eq_refl Hlr1)
    as Htrain2.
  set (s2 := train_run self1 (Keras.fit_model s1) _ e2 path2 (files w1)) in *.
  eexists _, _, _, _, _, _.
  split; [exact Htrain1|]. split; [exact Htrain2|].
  split; [reflexivity|].
  split; [unfold Keras.layers; rewrite Hout2, Hout1; reflexivity|].
  split; [reflexivity|]. split; [exact Hepoch2|].
  intros Hpos k Hk.
  destruct (Hhist2 ltac:(rewrite Hepoch2; apply range_nonempty; exact Hpos) k Hk)
    as (l & Hl & Hlen).
  exists l. split; [exact Hl|]. rewrite Hlen, Hepoch2. apply range_length.
Qed.



(** *** fine_tune *)

Lemma slice_start_le (len : nat) (start : Z) :
  (slice_start len start <= len)%nat.
Proof.
  unfold slice_start. cbv zeta. destruct (Z.ltb_spec start 0); lia.
Qed.

(** The loop of [fine_tune] for any start, negative ones included: the
    layers before the start of the slice are as they were, the others are
    set trainable. *)
Lemma unfreeze_from_slice (start_layer : Z) (sub : list Keras.Layer) (i : nat) :
  unfreeze_from start_layer sub !! i
  = if (i <? slice_start (length sub) start_layer)%nat then sub !! i
    else Keras.set_trainable true <$> sub !! i.
Proof.
  unfold unfreeze_from, slice_from.
  pose proof (slice_start_le (length sub) start_layer) as Hk.
  set (k := slice_start (length sub) start_layer) in *.
  destruct (Nat.ltb_spec i k) as [Hlt|Hge].
  - rewrite lookup_app_l by (rewrite length_take; lia).
    apply lookup_take_lt. exact Hlt.
  - rewrite lookup_app_r by (rewrite length_take; lia).
    rewrite list_lookup_fmap, lookup_drop, length_take.
    f_equal. f_equal. lia.
Qed.

Lemma unfreeze_from_length (start_layer : Z) (sub : list Keras.Layer) :
  length (unfreeze_from start_layer sub) = length sub.
Proof.
  unfold unfreeze_from, slice_from.
  pose proof (slice_start_le (length sub) start_layer) as Hk.
  rewrite length_app, length_take, length_map, length_drop. lia.
Qed.

(** X15: on a model whose entry 2 of [model.layers] is a nested model
    (what [fine_tune] takes the backbone to be), [fine_tune] returns: in
    that nested model the layers before the slice start keep their
    [trainable] flag and all later ones have it set, a negative start being
    counted from the end; the flag of the nested model itself, every other
    layer of the model and its variables are unchanged; and the model is
    recompiled with the learning rate 1e-4. *)
Theorem fine_tune_nested_backbone (self : Classifier) (m : Keras.Model W)
        (name : string) (t : bool) (sub : list Keras.Layer) (start_layer : Z) :
  model self = Some m ->
  Keras.layers m !! 2%nat = Some (Keras.Functional name t sub) ->
  exists m',
    fine_tune self start_layer = Return (set_model_attr (Some m') self)
    /\ Keras.layers m'
       = <[2%nat := Keras.Functional name t (unfreeze_from start_layer sub)]>
           (Keras.layers m)
    /\ Keras.weights m' = Keras.weights m
    /\ Keras.model_lr m' = Some (lit (Dec 1 (-4)))
    /\ length (unfreeze_from start_layer sub) = length sub
    /\ forall i,
        unfreeze_from start_layer sub !! i
        = if (i <? slice_start (length sub) start_layer)%nat then sub !! i
          else Keras.set_trainable true <$> sub !! i.
Proof.
  intros Hmodel Hlayer.
  eexists. split.
  - unfold fine_tune. rewrite Hmodel. cbn [attr]. rewrite bind_return.
    rewrite (index_nonneg_lookup (Keras.layers m) 2 _ ltac:(lia) Hlayer).
    rewrite bind_return. cbn [Keras.layer_layers]. rewrite bind_return.
    reflexivity.
  - split; [reflexivity|]. split; [reflexivity|]. split; [reflexivity|].
    split; [apply unfreeze_from_length | apply unfreeze_from_slice].
Qed.

Lemma fine_tune_flat (self self0 : Classifier) (m : Keras.Model W)
      (start_layer : Z) :
  model self = Some m ->
  Keras.outputs m = Keras.outputs (built_model self0) ->
  fine_tune self start_layer = Raise AttributeError.
Proof.
  intros Hmodel Hout. unfold fine_tune, Keras.layers.
  rewrite Hmodel. cbn [attr]. rewrite bind_return, Hout. reflexivity.
Qed.

(** *** The usage script *)

(** X16: the usage script cannot run to its end.  With its three
    directories in place the constructor, [build_model], the first
    [train] of 40 epochs and [plot_training_history] all return, and the
    call [fine_tune(start_layer=402)] that follows raises AttributeError;
    the second training, the evaluation and [save_model] are never
    reached. *)
Theorem main_stops_at_fine_tune (w : World) (d1 d2 d3 : Data.Directory) :
  disk w !! path_join base_dir "train" = Some d1 ->
  disk w !! path_join base_dir "val" = Some d2 ->
  disk w !! path_join base_dir "test" = Some d3 ->
  Data.index_directory d1 <> [] ->
  Data.index_directory d2 <> [] ->
  Data.index_directory d3 <> [] ->
  exists c1 w1 c2 c3 w3 w4,
    __init__ (path_join base_dir "train") (path_join base_dir "val")
             (path_join base_dir "test") 12 w
    = Return (c1, w1)
    /\ build_model c1 = Return c2
    /\ train c2 40 (path_join base_dir "EfficientNetV2B3.keras") w1
       = Return (c3, w3)
    /\ plot_training_history c3 w3 = Return (c3, w4)
    /\ fine_tune c3 402 = Raise AttributeError
    /\ main w = Raise AttributeError.
Proof.
  intros H1 H2 H3 F1 F2 F3.
  pose proof (init_spec _ _ _ 12 w d1 d2 d3 H1 H2 H3 F1 F2 F3 ltac:(lia))
    as Hinit.
  cbv zeta in Hinit.
  set (c1 := mkClassifier _ _ _ _ None None) in Hinit.
  set (w1 := emit (gpu_line w) w) in Hinit.
  assert (Hbuild : build_model c1
                   = Return (set_model_attr (Some (built_model c1)) c1)).
  { rewrite build_model_cases. reflexivity. }
  set (c2 := set_model_attr (Some (built_model c1)) c1) in Hbuild.
  set (path := path_join base_dir "EfficientNetV2B3.keras").
  assert (Hclass : class_compiled (built_model c1)).
  { eexists. reflexivity. }
  pose proof Hclass as [lr Hlr].
  destruct (train_run_spec c2 (built_model c1) _ 40 path (files w1) Hlr Hclass)
    as (_ & Hout & _ & _ & Hhist & Hepoch).
  pose proof (train_unfold c2 (built_model c1) _ 40 path w1 eq_refl Hlr)
    as Htrain.
  set (s := train_run c2 (built_model c1) _ 40 path (files w1)) in *.
  set (c3 := set_history_attr _ _) in Htrain.
  set (w3 := with_files _ w1) in Htrain.
  destruct (plot_with_class_history c3 (Keras.fit_history s) w3 eq_refl Hhist)
    as (l1 & l2 & l3 & l4 & Hplot & _).
  { rewrite Hepoch. apply range_nonempty. lia. }
  assert (Hft : fine_tune c3 402 = Raise AttributeError).
  { apply (fine_tune_flat c3 c1 (Keras.fit_model s)); [reflexivity | exact Hout]. }
  eexists c1, w1, c2, c3, w3, _.
  split; [exact Hinit|]. split; [exact Hbuild|]. split; [exact Htrain|].
  split; [exact Hplot|]. split; [exact Hft|].
  unfold main. cbv zeta. fold path.
  change default_num_classes with 12.
  rewrite Hinit, bind_return. cbn [fst snd].
  rewrite Hbuild, bind_return, Htrain, bind_return. cbn [fst snd].
  rewrite Hplot, bind_return. cbn [fst snd]. rewrite Hft. reflexivity.
Qed.

(** *** ReduceLROnPlateau as [train] configures it, continued *)

Lemma plateau_step_improves (factor : DecLit) (patience : Z) (l b : num)
      (c : Keras.CbState) (s : Keras.FitState W) :
  Keras.best c = Some b ->
  Keras.cooldown_counter c = 0 ->
  num_ltb l (num_sub b (lit Keras.rlrop_min_delta)) = true ->
  Keras.reduce_lr_on_epoch_end "loss" factor patience {["loss" := l]} c s
  = (Keras.mkCb (Some l) 0 0, s).
Proof.
  destruct c as [bst wt cd]. cbn [Keras.best Keras.cooldown_counter Keras.wait].
  intros -> -> Himp.
  unfold Keras.reduce_lr_on_epoch_end. rewrite lookup_singleton_eq.
  cbn [Keras.cooldown_counter Keras.best Keras.wait].
  replace (0 <? 0) with false by reflexivity.
  change (Keras.auto_mode "loss") with Keras.Min.
  cbn [Keras.cooldown_counter Keras.best Keras.wait Keras.improves].
  rewrite Himp. reflexivity.
Qed.

(** X18: the ReduceLROnPlateau callback of [train] counts consecutive
    epochs only.  An epoch whose loss improves on the best by more than
    1e-4 resets the count, so up to nine stalled epochs before it and up to
    nine after it (eighteen in all) leave the learning rate and the rest
    of the training state as they were. *)
Theorem plateau_counts_consecutive_epochs (model_path : string)
        (stalled1 stalled2 : list num) (improved best : num)
        (s : Keras.FitState W) :
  (length stalled1 <= 9)%nat ->
  (length stalled2 <= 9)%nat ->
  Forall (fun l => num_ltb l (num_sub best (lit (Dec 1 (-4)))) = false)
         stalled1 ->
  num_ltb improved (num_sub best (lit (Dec 1 (-4)))) = true ->
  Forall (fun l => num_ltb l (num_sub improved (lit (Dec 1 (-4)))) = false)
         stalled2 ->
  train_callbacks model_path !! 1%nat
  = Some (Keras.ReduceLROnPlateau "loss" (Dec 1 (-1)) 10 1)
  /\ plateau_run (Dec 1 (-1)) 10 (stalled1 ++ [improved] ++ stalled2)
                 (Keras.mkCb (Some best) 0 0) s
     = (Keras.mkCb (Some improved) (Z.of_nat (length stalled2)) 0, s).
Proof.
  intros Hlen1 Hlen2 Hst1 Himp Hst2. split; [reflexivity|].
  rewrite plateau_run_app.
  rewrite (plateau_run_waits (Dec 1 (-1)) 10 best stalled1 Hst1)
    by (cbn; try reflexivity; lia).
  cbn [fst snd Keras.wait]. rewrite plateau_run_app.
  cbn [plateau_run].
  rewrite (plateau_step_improves (Dec 1 (-1)) 10 improved best)
    by (cbn; try reflexivity; exact Himp).
  cbn [fst snd].
  rewrite (plateau_run_waits (Dec 1 (-1)) 10 improved stalled2 Hst2)
    by (cbn; try reflexivity; lia).
  reflexivity.
Qed.


(** *** The methods one after the other *)

(** X19: after [train] on a model compiled by the class, [evaluate]
    returns for each of the three dataset names: it evaluates the trained
    model on the dataset the constructor loaded under that name, which
    training has not changed. *)
Theorem train_then_evaluate (self : Classifier) (m : Keras.Model W)
        (epochs : Z) (model_path : string) (w : World) :
  model self = Some m ->
  class_compiled m ->
  exists self' w' m',
    train self epochs model_path w = Return (self', w')
    /\ model self' = Some m'
    /\ evaluate self' "train" = Return (test_metrics m' (train_ds self))
    /\ evaluate self' "val" = Return (test_metrics m' (val_ds self))
    /\ evaluate self' "test" = Return (test_metrics m' (test_ds self)).
Proof.
  intros Hmodel Hclass. pose proof Hclass as [lr Hlr].
  destruct (train_run_spec self m _ epochs model_path (files w) Hlr Hclass)
    as (_ & _ & [lr' Hc] & _).
  eexists _, _, _.
  split; [apply (train_unfold self m _ epochs model_path w Hmodel Hlr)|].
  split; [reflexivity|].
  set (s := train_run self m _ epochs model_path (files w)) in *.
  set (self' := set_history_attr _ _).
  destruct (eval_dataset_known self') as (Et & Ev & Ete).
  unfold evaluate. rewrite Et, Ev, Ete.
  unfold Model_evaluate. cbn [model self' set_history_attr set_model_attr attr].
  rewrite !bind_return, Hc. repeat split.
Qed.

Lemma prepare_dataset_nonneg (self : Config) (directory : string)
      (batch_size : Z) (w w' : World) (ds : Batches) :
  _prepare_dataset self directory batch_size w = Return (ds, w') ->
  ds <> [] ->
  0 <= num_classes self.
Proof.
  intros Hret Hne.
  pose proof (prepare_dataset_raises_iff self directory batch_size w) as Hiff.
  rewrite Hret in Hiff. cbn [raises Return] in Hiff.
  apply prepare_dataset_inv in Hret as (_ & d & Hdir & Hfiles & Hbs & ->).
  rewrite Hdir in Hiff.
  destruct (Z.ltb_spec (num_classes self) 0) as [Hn|Hn]; [|exact Hn].
  assert (Hfalse : false = true); [|discriminate].
  apply Hiff. right. right. split; [exact Hn|].
  intros Hnil. apply Hne. unfold prepared. rewrite Hnil. reflexivity.
Qed.

(** X20: on a classifier the constructor returned with a training set
    that is not empty, [build_model] never raises: the class count cannot
    be negative (the constructor would have raised while encoding the
    labels) and the image size 75 x 100 is above the 32 pixels the
    backbone asks for. *)
Theorem build_model_after_init (train_dir val_dir test_dir : string) (n : Z)
        (w0 w1 : World) (self : Classifier) :
  __init__ train_dir val_dir test_dir n w0 = Return (self, w1) ->
  train_ds self <> [] ->
  0 <= n
  /\ exists m, build_model self = Return (set_model_attr (Some m) self)
               /\ Keras.model_lr m = Some (lit (Dec 1 (-3))).
Proof.
  intros Hinit Hne.
  pose proof Hinit as Hinv.
  apply init_inv in Hinv as (_ & d1 & d2 & d3 & H1 & _ & _ & _ & _ & _ & ->).
  cbn [train_ds] in Hne.
  assert (Hn : 0 <= n).
  { unfold __init__ in Hinit.
    replace (int (float_mul (float_of_int 75) (truediv 320 240)))
      with (@Return Z 100) in Hinit by (vm_compute; reflexivity).
    rewrite bind_return, setup_gpu_spec, bind_return in Hinit.
    cbn [snd] in Hinit.
    destruct (_prepare_dataset (mkConfig n 75 100 (75, 100)) train_dir
                default_batch_size (emit (gpu_line w0) w0))
      as [e|[ds w']] eqn:Htrain; [discriminate|].
    apply (prepare_dataset_nonneg _ _ _ _ _ _ Htrain).
    apply prepare_dataset_inv in Htrain as (_ & d & Hd & _ & _ & ->).
    cbn [emit disk] in Hd. rewrite H1 in Hd. inversion Hd; subst d.
    exact Hne. }
  split; [exact Hn|].
  eexists. rewrite build_model_cases. cbn [config height width num_classes].
  replace (n <? 0) with false by (symmetry; apply Z.ltb_ge; exact Hn).
  split; reflexivity.
Qed.

(** X21: the model [build_model] stores has nine layers, in this order:
    the input layer of shape (None, height, width, 3), the five
    augmentation layers (resizing to height x width, random brightness
    between -0.5 and 0.5, random contrast 0.9, random flip, the
    EfficientNetV2 preprocessing), the backbone with all its layers
    frozen, global average pooling, and a dense sigmoid layer of
    num_classes units.  Only the backbone is not trainable; the model is
    compiled with Nadam at 1e-3 and the accuracy metric; and the
    configuration had at least 32 pixels a side and no negative class
    count. *)
Theorem build_model_layers (self self' : Classifier) :
  build_model self = Return self' ->
  exists m,
    model self' = Some m
    /\ Keras.layers m
       = [Keras.Leaf (Keras.InputLayer [None; Some (height (config self));
                                        Some (width (config self)); Some 3])
                     true;
          Keras.Leaf (Keras.Resizing (height (config self))
                                     (width (config self))) true;
          Keras.Leaf (Keras.RandomBrightness (Dec (-5) (-1)) (Dec 5 (-1))) true;
          Keras.Leaf (Keras.RandomContrast (Dec 9 (-1))) true;
          Keras.Leaf Keras.RandomFlip true;
          Keras.Leaf (Keras.Lambda "preprocess_input") true;
          Keras.Functional "efficientnetv2-b3" false
                           (map (Keras.set_trainable false) backbone_layers);
          Keras.Leaf Keras.GlobalAveragePooling2D true;
          Keras.Leaf (Keras.Dense (num_classes (config self)) "sigmoid") true]
    /\ map Keras.trainable (Keras.layers m)
       = [true; true; true; true; true; true; false; true; true]
    /\ Keras.compiled m
       = Some (Keras.mkCompiled (Keras.Nadam (lit (Dec 1 (-3))))
                                (Keras.CategoricalCrossentropy "val_loss")
                                [Keras.Accuracy])
    /\ Keras.weights m = initial_weights (Keras.layers m)
    /\ 32 <= height (config self)
    /\ 32 <= width (config self)
    /\ 0 <= num_classes (config self).
Proof.
  intros Hbuild. pose proof Hbuild as Hinv. apply build_model_inv in Hinv.
  subst self'. exists (built_model self).
  repeat (split; [reflexivity|]).
  rewrite build_model_cases in Hbuild.
  destruct (Z.leb_spec 32 (height (config self))); [|discriminate].
  destruct (Z.leb_spec 32 (width (config self))); [|discriminate].
  destruct (Z.ltb_spec (num_classes (config self)) 0); [discriminate|].
  repeat split; assumption.
Qed.

End More.

(** ** The further properties on the small instance *)

Lemma toy_prepare :
  @_prepare_dataset fw (Toy.config 12) "train" 32 (Toy.world false)
  = Py.Return (@prepared fw (Toy.config 12) Toy.two_classes 32, Toy.world false).
Proof.
  apply (@prepare_dataset_spec fw (Toy.config 12) "train" 32 (Toy.world false)
           Toy.two_classes);
    [reflexivity | discriminate | lia | cbn; lia].
Qed.

Lemma toy_built_class : @class_compiled fw (@built_model fw (Toy.loaded false)).
Proof. eexists. reflexivity. Qed.


Lemma prepare_dataset_batches_witness :
  exists d,
    @disk fw (Toy.world false) !! "train" = Some d
    /\ Forall (fun xy : TF.Tensor Q * TF.Tensor Q =>
                 exists k : nat,
                   (0 < k)%nat /\ Z.of_nat k <= 32
                   /\ TF.shape xy.1 = [k; 75; 100; 3]%nat
                   /\ TF.shape xy.2 = [k; 12]%nat
                   /\ TF.well_formed xy.2)
              (@prepared fw (Toy.config 12) Toy.two_classes 32)
    /\ sum_list (map (fun xy : TF.Tensor Q * TF.Tensor Q =>
                        hd 0%nat (TF.shape xy.1))
                     (@prepared fw (Toy.config 12) Toy.two_classes 32))
       = length (Data.index_directory d).
Proof.
  exact (@prepare_dataset_batches fw (Toy.config 12) "train" 32
           (Toy.world false) (Toy.world false)
           (@prepared fw (Toy.config 12) Toy.two_classes 32) toy_prepare).
Defined.


Lemma grey_to_rgb_idempotent_witness :
  @_grey_to_rgb fw (TF.mkTensor [1; 1; 2; 3]%nat
                      [3 # 10; 3 # 10; 3 # 10; 7 # 10; 7 # 10; 7 # 10])
  = Py.Return (TF.mkTensor [1; 1; 2; 3]%nat
                 [3 # 10; 3 # 10; 3 # 10; 7 # 10; 7 # 10; 7 # 10])
  /\ length [1; 1; 2; 3]%nat = length (TF.shape Toy.grey_batch)
  /\ last [1; 1; 2; 3]%nat <> Some 1%nat.
Proof.
  exact (@grey_to_rgb_idempotent fw Toy.grey_batch
           (TF.mkTensor [1; 1; 2; 3]%nat
              [3 # 10; 3 # 10; 3 # 10; 7 # 10; 7 # 10; 7 # 10])
           eq_refl).
Defined.



Lemma init_missing_directory_witness :
  @disk fw (Toy.no_test_dir false) !! "test" = None
  /\ Py.raises (@__init__ fw "train" "val" "test" 12 (Toy.no_test_dir false))
     = true.
Proof.
  split; [reflexivity|].
  exact (@init_missing_directory fw "train" "val" "test" 12
           (Toy.no_test_dir false) (or_intror (or_intror eq_refl))).
Defined.

Lemma datasets_fit_model_witness :
  exists m,
    @model fw (Toy.built false) = Some m
    /\ Keras.input_shape m = Some [None; Some 75; Some 100; Some 3]
    /\ last (Keras.layers m)
       = Some (Keras.Leaf (Keras.Dense 12 "sigmoid") true)
    /\ Forall (fun xy : TF.Tensor Q * TF.Tensor Q =>
                 exists k : nat,
                   TF.shape xy.1 = [k; 75; 100; 3]%nat
                   /\ TF.shape xy.2 = [k; Z.to_nat 12])
              (@train_ds fw (Toy.built false) ++ @val_ds fw (Toy.built false)
               ++ @test_ds fw (Toy.built false)).
Proof.
  exact (@datasets_fit_model fw "train" "val" "test" 12 (Toy.world false)
           (Toy.started false) (Toy.loaded false) (Toy.built false)
           (toy_init false) (toy_build false)).
Defined.



Lemma train_then_plot_witness :
  exists self' w' loss val_loss accuracy val_accuracy,
    @train fw (Toy.built false) 2 "best.keras" (Toy.started false)
    = Py.Return (self', w')
    /\ @plot_training_history fw self' w'
       = Py.Return
           (self',
            @emit fw
              (@Show fw (@history_figure fw loss val_loss accuracy val_accuracy))
              w')
    /\ length loss = 2%nat
    /\ length val_loss = 2%nat
    /\ length accuracy = 2%nat
    /\ length val_accuracy = 2%nat.
Proof.
  exact (@train_then_plot fw (Toy.built false)
           (@built_model fw (Toy.loaded false)) 2 "best.keras"
           (Toy.started false) eq_refl toy_built_class ltac:(lia)).
Defined.

Lemma train_without_epochs_witness :
  exists self',
    @train fw (Toy.built false) 0 "best.keras" (Toy.started false)
    = Py.Return (self', Toy.started false)
    /\ @model fw self' = Some (@built_model fw (Toy.loaded false))
    /\ @history fw self' = Some (@Keras.mkHistory Toy.numeric [] ∅)
    /\ @plot_training_history fw self' (Toy.started false)
       = Py.Raise Py.KeyError.
Proof.
  exact (@train_without_epochs fw (Toy.built false)
           (@built_model fw (Toy.loaded false)) 0 "best.keras"
           (Toy.started false) eq_refl toy_built_class ltac:(lia)).
Defined.

Lemma train_twice_replaces_history_witness :
  exists self1 w1 self2 w2 m2 h2,
    @train fw (Toy.built false) 3 "first.keras" (Toy.started false)
    = Py.Return (self1, w1)
    /\ @train fw self1 2 "second.keras" w1 = Py.Return (self2, w2)
    /\ @model fw self2 = Some m2
    /\ Keras.layers m2 = Keras.layers (@built_model fw (Toy.loaded false))
    /\ @history fw self2 = Some h2
    /\ Keras.epoch h2 = [0; 1]%nat.
Proof.
  destruct (@train_twice_replaces_history fw (Toy.built false)
              (@built_model fw (Toy.loaded false)) 3 2
              "first.keras" "second.keras" (Toy.started false)
              eq_refl toy_built_class)
    as (self1 & w1 & self2 & w2 & m2 & h2 & H1 & H2 & Hm & Hl & Hh & He & _).
  exists self1, w1, self2, w2, m2, h2.
  repeat (split; [assumption|]). exact He.
Defined.


Lemma fine_tune_nested_backbone_witness :
  Keras.layers Toy.nested_model !! 2%nat
  = Some (Keras.Functional "efficientnetv2-b3" false
            (map (Keras.set_trainable false) Toy.backbone))
  /\ exists m',
      @fine_tune fw (Toy.nested false) 1
      = Py.Return (@set_model_attr fw (Some m') (Toy.nested false))
      /\ (Keras.layers m' !! 2%nat ≫= fun l =>
          match l with
          | Keras.Functional _ _ sub => Some (map Keras.trainable sub)
          | Keras.Leaf _ _ => None
          end) = Some [false; true; true]
      /\ Keras.weights m' = Keras.weights Toy.nested_model
      /\ Keras.model_lr m' = Some (1 # 10000).
Proof.
  split; [reflexivity|].
  destruct (@fine_tune_nested_backbone fw (Toy.nested false) Toy.nested_model
              "efficientnetv2-b3" false
              (map (Keras.set_trainable false) Toy.backbone) 1
              eq_refl eq_refl)
    as (m' & Hft & Hlayers & Hw & Hlr & _).
  exists m'. split; [exact Hft|]. split; [rewrite Hlayers; reflexivity|].
  split; [exact Hw | exact Hlr].
Defined.

Lemma main_stops_at_fine_tune_witness :
  @main fw (Toy.drive false) = Py.Raise Py.AttributeError.
Proof.
  destruct (@main_stops_at_fine_tune fw (Toy.drive false)
              Toy.two_classes Toy.two_classes Toy.two_classes
              ltac:(vm_compute; reflexivity) ltac:(vm_compute; reflexivity)
              ltac:(vm_compute; reflexivity)
              ltac:(discriminate) ltac:(discriminate) ltac:(discriminate))
    as (c1 & w1 & c2 & c3 & w3 & w4 & _ & _ & _ & _ & _ & Hmain).
  exact Hmain.
Defined.

Lemma plateau_counts_consecutive_epochs_witness :
  @plateau_run fw (Dec 1 (-1)) 10
               (repeat (1 # 1) 9 ++ [1 # 2] ++ repeat (1 # 2) 9)
               (@Keras.mkCb Toy.numeric (Some (1 # 1)) 0 0) (Toy.fit_start false)
  = (@Keras.mkCb Toy.numeric (Some (1 # 2)) 9 0, Toy.fit_start false).
Proof.
  exact (proj2 (@plateau_counts_consecutive_epochs fw "best.keras"
                  (repeat (1 # 1) 9) (repeat (1 # 2) 9) (1 # 2) (1 # 1)
                  (Toy.fit_start false)
                  ltac:(cbn; lia) ltac:(cbn; lia)
                  ltac:(repeat constructor) eq_refl
                  ltac:(repeat constructor))).
Defined.

Lemma train_then_evaluate_witness :
  exists self' w' m',
    @train fw (Toy.built false) 2 "best.keras" (Toy.started false)
    = Py.Return (self', w')
    /\ @model fw self' = Some m'
    /\ @evaluate fw self' "train"
       = Py.Return (@test_metrics fw m' (@train_ds fw (Toy.built false)))
    /\ @evaluate fw self' "val"
       = Py.Return (@test_metrics fw m' (@val_ds fw (Toy.built false)))
    /\ @evaluate fw self' "test"
       = Py.Return (@test_metrics fw m' (@test_ds fw (Toy.built false))).
Proof.
  exact (@train_then_evaluate fw (Toy.built false)
           (@built_model fw (Toy.loaded false)) 2 "best.keras"
           (Toy.started false) eq_refl toy_built_class).
Defined.

Lemma build_model_after_init_witness :
  0 <= 12
  /\ exists m,
      @build_model fw (Toy.loaded false)
      = Py.Return (@set_model_attr fw (Some m) (Toy.loaded false))
      /\ Keras.model_lr m = Some (1 # 1000).
Proof.
  exact (@build_model_after_init fw "train" "val" "test" 12 (Toy.world false)
           (Toy.started false) (Toy.loaded false) (toy_init false)
           ltac:(discriminate)).
Defined.

Lemma build_model_layers_witness :
  exists m,
    @model fw (Toy.built false) = Some m
    /\ length (Keras.layers m) = 9%nat
    /\ map Keras.trainable (Keras.layers m)
       = [true; true; true; true; true; true; false; true; true]
    /\ Keras.layers m !! 8%nat
       = Some (Keras.Leaf (Keras.Dense 12 "sigmoid") true).
Proof.
  destruct (@build_model_layers fw (Toy.loaded false) (Toy.built false)
              (toy_build false))
    as (m & Hm & Hlayers & Htrainable & _).
  exists m. split; [exact Hm|]. rewrite Hlayers.
  split; [reflexivity|]. split; [reflexivity|]. reflexivity.
Defined.
